(** * CRUD handlers of the DRF learning repository, embedded in Rocq

    The repository is a set of small Django / Django-REST-framework apps,
    each exposing list / create / retrieve / update / delete over one table:

    - [deserializer/learnUpdate]  : [EmployeesWork], a manual JSON PUT handler
      whose record id travels in the request body, and the hand-written
      [EmployeesSerializer.update];
    - [deserializer/learn1]       : [student_list], a manual JSON POST handler;
    - [functionBasedApi/myapi]    : [notesApi], one function branching on the
      HTTP verb;
    - [GenericApiView/myApi]      : [EmployeesList] and [EmployeesManipulation],
      thin classes over the framework's CRUD mixins;
    - [concreteView/apiView]      : the same mixins through the framework's
      concrete generic views.

    Python values are modelled as decoded JSON, model instances as records,
    tables as finite maps from the surrogate key to the row, and every handler
    as a function from the table and the request to the new table and the
    response.  Exceptions are explicit: code that can raise lives in a small
    state-and-exception monad, and [try]/[except] is a combinator of it.

    The views are the repository's; what they call - the JSON parser, the
    ORM lookups, the serializer fields, the CRUD mixins, the exception
    handler - is the framework's and is modelled by its documented
    behaviour.  Text is held as its UTF-8 bytes. *)

From Stdlib Require Import ZArith String List Ascii Lia Bool.
From stdpp Require Import base option list strings gmap pretty sorting.

Local Open Scope string_scope.
Local Open Scope Z_scope.

Set Warnings "-register-all".

(** ** Python values *)

(** What [JSONParser().parse] / [request.data] hand to the view.  Numbers are
    the integers: a JSON number with a fraction or an exponent, which the
    parser hands over as a [float], has no counterpart here. *)
Inductive json : Type :=
| JNull
| JBool (b : bool)
| JNum (n : Z)
| JStr (s : string)
| JArr (items : list json)
| JObj (members : list (string * json)).

(** A Python [dict] with text keys: the first binding of a key is the value
    the dict holds for it. *)
Abbreviation dict := (list (string * json)).

Fixpoint dict_get {A : Type} (k : string) (d : list (string * A)) : option A :=
  match d with
  | [] => None
  | (k', v) :: d' => if String.eqb k k' then Some v else dict_get k d'
  end.

(** [bool(v)]: what [if not id] tests. *)
Definition truthy (v : json) : bool :=
  match v with
  | JNull => false
  | JBool b => b
  | JNum n => negb (Z.eqb n 0)
  | JStr s => negb (String.eqb s EmptyString)
  | JArr items => match items with [] => false | _ => true end
  | JObj members => match members with [] => false | _ => true end
  end.

Definition type_name (v : json) : string :=
  match v with
  | JNull => "NoneType"
  | JBool _ => "bool"
  | JNum _ => "int"
  | JStr _ => "str"
  | JArr _ => "list"
  | JObj _ => "dict"
  end.

Definition join (sep : string) (parts : list string) : string :=
  match parts with
  | [] => EmptyString
  | p :: ps => fold_left (fun acc q => acc +:+ sep +:+ q) ps p
  end.

(** *** Text *)

Definition code (c : ascii) : Z := Z.of_N (N_of_ascii c).
Definition chr (n : Z) : ascii := ascii_of_N (Z.to_N n).

Fixpoint contains (c : ascii) (s : string) : bool :=
  match s with
  | EmptyString => false
  | String c' s' => Ascii.eqb c c' || contains c s'
  end.

Definition hex_digit (n : Z) : ascii := chr (if n <? 10 then 48 + n else 87 + n).

Definition backslash : ascii := chr 92.
Definition quote : ascii := chr 39.
Definition double_quote : ascii := chr 34.

(** The characters of [repr(s)] between the quotes: the quote in use and
    the backslash are escaped, and so are the ASCII control characters.
    Bytes beyond ASCII are left as they are, which is what [repr] does for
    printable characters. *)
Fixpoint escape (q : ascii) (s : string) : string :=
  match s with
  | EmptyString => EmptyString
  | String c s' =>
      let n := code c in
      (if Ascii.eqb c q || Ascii.eqb c backslash then String backslash (String c EmptyString)
       else if n =? 9 then String backslash "t"
       else if n =? 10 then String backslash "n"
       else if n =? 13 then String backslash "r"
       else if (n <? 32) || (n =? 127)
       then String backslash (String "x" (String (hex_digit (n / 16))
                                            (String (hex_digit (n mod 16)) EmptyString)))
       else String c EmptyString) +:+ escape q s'
  end.

(** [repr(s)] of text: in single quotes, unless the text holds a single
    quote and no double quote. *)
Definition repr_str (s : string) : string :=
  let q := if contains quote s && negb (contains double_quote s) then double_quote else quote in
  String q (escape q s) +:+ String q EmptyString.

(** [repr(v)] *)
Fixpoint py_repr (v : json) : string :=
  match v with
  | JNull => "None"
  | JBool true => "True"
  | JBool false => "False"
  | JNum n => pretty n
  | JStr s => repr_str s
  | JArr items => "[" +:+ join ", " (map py_repr items) +:+ "]"
  | JObj members =>
      "{" +:+ join ", " (map (fun kv => repr_str (fst kv) +:+ ": " +:+ py_repr (snd kv)) members) +:+ "}"
  end.

(** [str(v)], as an f-string formats it. *)
Definition py_str (v : json) : string :=
  match v with
  | JStr s => s
  | _ => py_repr v
  end.

(** White space as [str.strip] and the [\s] of [re] see it - the characters
    U+0009-000D, U+001C-0020, U+0085, U+00A0, U+1680, U+2000-200A, U+2028,
    U+2029, U+202F, U+205F and U+3000 - by the one, two or three bytes that
    encode them. *)
Definition space1 (a : Z) : bool :=
  ((9 <=? a) && (a <=? 13)) || ((28 <=? a) && (a <=? 32)).

Definition space2 (a b : Z) : bool :=
  (a =? 194) && ((b =? 133) || (b =? 160)).

Definition space3 (a b c : Z) : bool :=
  ((a =? 225) && (b =? 154) && (c =? 128))
  || ((a =? 226) && (b =? 128)
      && (((128 <=? c) && (c <=? 138)) || (c =? 168) || (c =? 169) || (c =? 175)))
  || ((a =? 226) && (b =? 129) && (c =? 159))
  || ((a =? 227) && (b =? 128) && (c =? 128)).

(** The text without the white space it begins with. *)
Fixpoint lstrip (s : list ascii) : list ascii :=
  match s with
  | [] => []
  | a :: s1 =>
      if space1 (code a) then lstrip s1
      else
        match s1 with
        | [] => s
        | b :: s2 =>
            if space2 (code a) (code b) then lstrip s2
            else
              match s2 with
              | [] => s
              | c :: s3 => if space3 (code a) (code b) (code c) then lstrip s3 else s
              end
        end
  end.

(** The same from the other end, on the text read backwards. *)
Fixpoint lstrip_backwards (s : list ascii) : list ascii :=
  match s with
  | [] => []
  | c :: s1 =>
      if space1 (code c) then lstrip_backwards s1
      else
        match s1 with
        | [] => s
        | b :: s2 =>
            if space2 (code b) (code c) then lstrip_backwards s2
            else
              match s2 with
              | [] => s
              | a :: s3 =>
                  if space3 (code a) (code b) (code c) then lstrip_backwards s3 else s
              end
        end
  end.

Definition rstrip (s : list ascii) : list ascii := rev (lstrip_backwards (rev s)).

(** [s.strip()] *)
Definition py_strip (s : string) : string :=
  string_of_list_ascii (rstrip (lstrip (list_ascii_of_string s))).

(** [len(s)]: the characters of the text, that is, its bytes without the
    continuation bytes of the encoding. *)
Definition py_len (s : string) : nat :=
  length (filter (fun c => negb ((128 <=? code c) && (code c <? 192)))
            (list_ascii_of_string s)).

(** *** [int(s)] on text

    White space around the number, an optional sign, and decimal digits
    that single underscores may separate.  The white space is the ASCII one
    and the digits are the ASCII ones: [int] also reads the decimal digits
    and the spaces of other scripts, for which this function answers [None].
    Whenever it answers [Some n], [int(s)] is [n]. *)
Definition digit_of (c : ascii) : option Z :=
  let n := code c in
  if (48 <=? n) && (n <=? 57) then Some (n - 48) else None.

Definition is_digit (c : ascii) : bool :=
  match digit_of c with Some _ => true | None => false end.

Definition int_space (c : ascii) : bool :=
  let n := code c in ((9 <=? n) && (n <=? 13)) || (n =? 32).

Fixpoint skip (p : ascii -> bool) (s : list ascii) : list ascii :=
  match s with
  | [] => []
  | c :: s' => if p c then skip p s' else s
  end.

Fixpoint parse_digits (acc : Z) (s : list ascii) : option Z :=
  match s with
  | [] => Some acc
  | c :: s' =>
      match digit_of c with
      | Some d => parse_digits (acc * 10 + d) s'
      | None =>
          if Ascii.eqb c "_" then
            match s' with
            | d :: _ => if is_digit d then parse_digits acc s' else None
            | [] => None
            end
          else None
      end
  end.

(** Digits, the first of which is no underscore. *)
Definition parse_number (s : list ascii) : option Z :=
  match s with
  | d :: _ => if is_digit d then parse_digits 0 s else None
  | [] => None
  end.

Definition int_of_str (s : string) : option Z :=
  let body := rev (skip int_space (rev (skip int_space (list_ascii_of_string s)))) in
  match body with
  | [] => None
  | c :: rest =>
      if Ascii.eqb c "-" then Z.opp <$> parse_number rest
      else if Ascii.eqb c "+" then parse_number rest
      else parse_number body
  end.
Arguments int_of_str : simpl never.



(** ** Exceptions and the handler monad *)

Inductive exception : Type :=
| ParseError (detail : string)
| AttributeError (msg : string)
| ValueError (msg : string)
| TypeError (msg : string)
| IntegrityError (msg : string)
| DoesNotExist (model : string)
| Http404 (msg : string)
| ValidationError (errors : list (string * json)).

(** [str(e)] *)
Definition exception_text (e : exception) : string :=
  match e with
  | ParseError detail => detail
  | AttributeError msg => msg
  | ValueError msg => msg
  | TypeError msg => msg
  | IntegrityError msg => msg
  | DoesNotExist model => model +:+ " matching query does not exist."
  | Http404 msg => msg
  | ValidationError errors => py_repr (JObj errors)
  end.

Definition is_DoesNotExist (e : exception) : bool :=
  match e with DoesNotExist _ => true | _ => false end.

Inductive result (A : Type) : Type :=
| Ok (a : A)
| Raise (e : exception).
Arguments Ok {A} a.
Arguments Raise {A} e.

(** A computation over the database [S] that returns or raises.  Writes are
    committed as they happen (Django's autocommit), so the state reached when
    an exception is raised is the state the handler continues from. *)
Definition M (S A : Type) : Type := S -> result A * S.

Definition ret {S A} (a : A) : M S A := fun s => (Ok a, s).
Definition raise {S A} (e : exception) : M S A := fun s => (Raise e, s).
Definition bind {S A B} (m : M S A) (k : A -> M S B) : M S B :=
  fun s => match m s with
           | (Ok a, s') => k a s'
           | (Raise e, s') => (Raise e, s')
           end.
Definition lift {S A} (r : result A) : M S A := fun s => (r, s).
Definition modify {S} (f : S -> S) : M S unit := fun s => (Ok tt, f s).
Definition gets {S A} (f : S -> A) : M S A := fun s => (Ok (f s), s).

(** [try: m  except <handles> as e: h e] *)
Definition try_except {S A} (m : M S A) (handles : exception -> bool)
    (h : exception -> M S A) : M S A :=
  fun s => match m s with
           | (Ok a, s') => (Ok a, s')
           | (Raise e, s') => if handles e then h e s' else (Raise e, s')
           end.

Notation "'do' x <- m ; k" := (bind m (fun x => k))
  (at level 10, x name, m at level 100, k at level 200).
Notation "'run' m ; k" := (bind m (fun _ => k))
  (at level 10, m at level 100, k at level 200).

(** ** Tables and the ORM calls the views make *)

(** A table: its rows by surrogate key, and the key the store assigns to the
    next created row. *)
Record table (R : Type) : Type := Table {
  rows : gmap Z R;
  next_id : Z
}.
Arguments Table {R} rows next_id.
Arguments rows {R} t.
Arguments next_id {R} t.

(** A model instance: a row together with its key. *)
Record instance (R : Type) : Type := Instance {
  inst_id : Z;
  fields : R
}.
Arguments Instance {R} inst_id fields.
Arguments inst_id {R} i.
Arguments fields {R} i.

(** The integer key field prepares a lookup value with [int(value)]; a value
    that is no number makes the lookup raise.  Where [int_of_str] answers
    [None] for text that [int] reads (digits or spaces beyond ASCII), this
    function raises and the lookup of the program does not: [to_pk v = Ok n]
    is what the properties below rely on. *)
Definition to_pk (v : json) : result Z :=
  match v with
  | JNum n => Ok n
  | JBool b => Ok (if b then 1 else 0)
  | JStr s =>
      match int_of_str s with
      | Some n => Ok n
      | None => Raise (ValueError ("Field 'id' expected a number but got " +:+ py_repr v +:+ "."))
      end
  | _ => Raise (TypeError ("Field 'id' expected a number but got " +:+ py_repr v +:+ "."))
  end.

(** [Model.objects.get(id=v)].  A [None] value makes the lookup an IS NULL
    test, which no row passes; the views never pass it. *)
Definition objects_get {R} (model : string) (v : json) : M (table R) (instance R) :=
  match v with
  | JNull => raise (DoesNotExist model)
  | _ =>
      do n <- lift (to_pk v);
      do row <- gets (fun t => rows t !! n);
      match row with
      | Some r => ret (Instance n r)
      | None => raise (DoesNotExist model)
      end
  end.

Definition key_le {R} (a b : Z * R) : Prop := fst a <= fst b.

#[local] Instance key_le_dec {R} (a b : Z * R) : Decision (key_le a b) :=
  Z_le_dec (fst a) (fst b).

Arguments objects_get : simpl never.

(** [Model.objects.all()]: every row once.  The rows are listed by key;
    the properties below rely on no order. *)
Definition objects_all {R} (t : table R) : list (instance R) :=
  map (fun kv => Instance (fst kv) (snd kv))
      (merge_sort key_le (map_to_list (rows t))).

(** [instance.save()] on an instance that was read from the table. *)
Definition save {R} (i : instance R) : M (table R) unit :=
  modify (fun t => Table (<[inst_id i := fields i]> (rows t)) (next_id t)).

(** [Model.objects.create(...)] / the first [save()] of a new instance: the
    store assigns the key. *)
Definition objects_create {R} (r : R) : M (table R) (instance R) :=
  fun t => (Ok (Instance (next_id t) r),
            Table (<[next_id t := r]> (rows t)) (next_id t + 1)).

(** [instance.delete()] *)
Definition delete_instance {R} (i : instance R) : M (table R) unit :=
  modify (fun t => Table (delete (inst_id i) (rows t)) (next_id t)).

(** ** Requests and responses *)

Inductive http_method : Type := GET | POST | PUT | PATCH | DELETE.

#[global] Instance http_method_eq_dec : EqDecision http_method.
Proof. solve_decision. Defined.

Inductive content : Type :=
| NoContent
| Text (s : string)
| Json (j : json).

Record response : Type := Response {
  status : Z;
  body : content
}.

(** [JsonResponse(data, status=...)] and [HttpResponse(content, status=...)]
    of django.http. *)
Definition JsonResponse (data : dict) (st : Z) : response := Response st (Json (JObj data)).
Definition HttpResponse (c : content) (st : Z) : response := Response st c.

(** [Response(data, status=...)] of rest_framework; the status defaults to
    200. *)
Definition HTTP_200_OK : Z := 200.
Definition HTTP_201_CREATED : Z := 201.
Definition HTTP_202_ACCEPTED : Z := 202.
Definition HTTP_204_NO_CONTENT : Z := 204.
Definition HTTP_400_BAD_REQUEST : Z := 400.
Definition HTTP_404_NOT_FOUND : Z := 404.
Definition HTTP_405_METHOD_NOT_ALLOWED : Z := 405.

Definition method_name (m : http_method) : string :=
  match m with
  | GET => "GET" | POST => "POST" | PUT => "PUT" | PATCH => "PATCH" | DELETE => "DELETE"
  end.

(** The framework's exception handler around a REST view: API exceptions
    become responses, [Http404] becomes the 404 response with its message
    as the detail, anything else escapes. *)
Definition handle_exception {S} (view : M S response) : M S response :=
  fun db =>
    match view db with
    | (Raise (ParseError detail), db') =>
        (Ok (JsonResponse [("detail", JStr detail)] HTTP_400_BAD_REQUEST), db')
    | (Raise (ValidationError errors), db') =>
        (Ok (JsonResponse errors HTTP_400_BAD_REQUEST), db')
    | (Raise (Http404 msg), db') =>
        (Ok (JsonResponse [("detail", JStr msg)] HTTP_404_NOT_FOUND), db')
    | other => other
    end.

Definition dquote : string := String (ascii_of_nat 34) EmptyString.

Definition method_not_allowed (m : http_method) : response :=
  JsonResponse
    [("detail", JStr ("Method " +:+ dquote +:+ method_name m +:+ dquote +:+ " not allowed."))]
    HTTP_405_METHOD_NOT_ALLOWED.

(** What the server sends for a view: its response, or the framework's
    status-500 page when the view lets an exception escape. *)
Definition serve {S} (view : M S response) (db : S) : response * S :=
  match view db with
  | (Ok resp, db') => (resp, db')
  | (Raise _, db') => (HttpResponse (Text "Server Error (500)") 500, db')
  end.

(** A request body as the JSON parser finds it: a value, or text that is
    not JSON.  [JSONParser().parse] and [request.data] return the value or
    raise [ParseError]. *)
Inductive parsed : Type :=
| Decoded (value : json)
| Malformed (detail : string).

Definition JSONParser_parse (b : parsed) : result json :=
  match b with
  | Decoded value => Ok value
  | Malformed detail => Raise (ParseError detail)
  end.

(** [d.get(key)]: only a dict has the method. *)
Definition py_get (d : json) (key : string) : result json :=
  match d with
  | JObj members => Ok (default JNull (dict_get key members))
  | _ => Raise (AttributeError ("'" +:+ type_name d +:+ "' object has no attribute 'get'"))
  end.

(** ** Serializer fields

    The framework's fields, by [run_validation]: the checks for an absent
    and a null value, then [to_internal_value], then the validators, whose
    messages are collected. *)

Inductive outcome (A : Type) : Type :=
| Skipped
| Valid (a : A)
| Invalid (msgs : list string).
Arguments Skipped {A}.
Arguments Valid {A} a.
Arguments Invalid {A} msgs.

(** [Field.run_validation]: an absent key is skipped under [partial=True] and
    is an error for a required field otherwise. *)
Definition run_validation {A} (partial required : bool)
    (to_internal_value : json -> outcome A) (supplied : option json) : outcome A :=
  match supplied with
  | None =>
      if partial then Skipped
      else if required then Invalid ["This field is required."]
      else Skipped
  | Some JNull => Invalid ["This field may not be null."]
  | Some v => to_internal_value v
  end.

(** The validators of a [CharField]: the declared [max_length], counted in
    characters, and the ban on null characters. *)
Definition text_errors (max_length : option nat) (value : string) : list string :=
  (match max_length with
   | Some n =>
       if (n <? py_len value)%nat
       then ["Ensure this field has no more than " +:+ pretty n +:+ " characters."]
       else []
   | None => []
   end
   ++ (if contains (chr 0) value then ["Null characters are not allowed."] else []))%list.

Definition validate_text (max_length : option nat) (value : string) : outcome string :=
  match text_errors max_length value with
  | [] => Valid value
  | msgs => Invalid msgs
  end.

(** [CharField]: text and numbers are accepted, a number as its decimal
    text; surrounding white space is trimmed, and text that is blank once
    trimmed is rejected. *)
Definition CharField (max_length : option nat) (v : json) : outcome string :=
  match v with
  | JStr s =>
      let value := py_strip s in
      if String.eqb value EmptyString then Invalid ["This field may not be blank."]
      else validate_text max_length value
  | JNum n => validate_text max_length (pretty n)
  | _ => Invalid ["Not a valid string."]
  end.

(** What [IntegerField] passes to [int]: the text without a trailing
    [.0...0] and the white space after it (the field's [re_decimal]). *)
Definition drop_decimal (s : string) : string :=
  match skip (Ascii.eqb "0") (lstrip_backwards (rev (list_ascii_of_string s))) with
  | c :: rest => if Ascii.eqb c "." then string_of_list_ascii (rev rest) else s
  | [] => s
  end.

(** [IntegerField]: an integer, or text that [int] reads, of at most 1000
    characters.  A bound on the value, which a model serializer takes from
    the column type, is not among the sources and not modelled. *)
Definition IntegerField (v : json) : outcome Z :=
  match v with
  | JNum n => Valid n
  | JStr s =>
      if (1000 <? py_len s)%nat then Invalid ["String value too large."]
      else
        match int_of_str (drop_decimal s) with
        | Some n => Valid n
        | None => Invalid ["A valid integer is required."]
        end
  | _ => Invalid ["A valid integer is required."]
  end.

(** [s.lower()], on the ASCII letters. *)
Fixpoint lower (s : string) : string :=
  match s with
  | EmptyString => EmptyString
  | String c s' =>
      let n := code c in
      String (if (65 <=? n) && (n <=? 90) then chr (n + 32) else c) (lower s')
  end.

(** [BooleanField.TRUE_VALUES] and [FALSE_VALUES], the text ones - text is
    compared in lower case; the numbers 1 and 0 belong to them as well. *)
Definition TRUE_VALUES : list string := ["t"; "y"; "yes"; "true"; "on"; "1"].

Definition FALSE_VALUES : list string := ["f"; "n"; "no"; "false"; "off"; "0"].

Definition BooleanField (v : json) : outcome bool :=
  match v with
  | JBool b => Valid b
  | JNum n =>
      if n =? 1 then Valid true
      else if n =? 0 then Valid false
      else Invalid ["Must be a valid boolean."]
  | JStr s =>
      if existsb (String.eqb (lower s)) TRUE_VALUES then Valid true
      else if existsb (String.eqb (lower s)) FALSE_VALUES then Valid false
      else Invalid ["Must be a valid boolean."]
  | _ => Invalid ["Must be a valid boolean."]
  end.

Definition value_of {A} (o : outcome A) : option A :=
  match o with Valid a => Some a | _ => None end.

(** The entry of [serializer.errors] for one field. *)
Definition error_of {A} (field : string) (o : outcome A) : dict :=
  match o with
  | Invalid msgs => [(field, JArr (map JStr msgs))]
  | _ => []
  end.

Definition not_a_dict (data : json) : dict :=
  [("non_field_errors",
    JArr [JStr ("Invalid data. Expected a dictionary, but got " +:+ type_name data +:+ ".")])].

(** ** deserializer/learnUpdate *)

Module LearnUpdate.

(** Modelled from the spec: [learnUpdate/models.py] is not among the
    sources.  The row carries the three text fields of the "second variant"
    DTO, the ones [EmployeesSerializer.update] assigns. *)
Record Employees : Type := {
  name : string;
  phone : string;
  city : string
}.

(** [serializer.validated_data]: a key is present iff the field was
    supplied and accepted. *)
Record validated_data : Type := {
  v_name : option string;
  v_phone : option string;
  v_city : option string
}.

(** serializers.py, lines 3-6, through [is_valid()]. *)
Definition is_valid (partial : bool) (data : json) : validated_data + dict :=
  match data with
  | JObj members =>
      let name := run_validation partial true (CharField (Some 50%nat)) (dict_get "name" members) in
      let phone := run_validation partial true (CharField (Some 15%nat)) (dict_get "phone" members) in
      let city := run_validation partial true (CharField (Some 50%nat)) (dict_get "city" members) in
      match (error_of "name" name ++ error_of "phone" phone ++ error_of "city" city)%list with
      | [] => inl {| v_name := value_of name; v_phone := value_of phone; v_city := value_of city |}
      | errors => inr errors
      end
  | _ => inr (not_a_dict data)
  end.
Arguments is_valid : simpl never.

(** serializers.py, lines 8-13. *)
Definition update (inst : instance Employees) (validated : validated_data)
    : M (table Employees) (instance Employees) :=
  let inst := Instance (inst_id inst)
    {| name := default (name (fields inst)) (v_name validated);
       phone := default (phone (fields inst)) (v_phone validated);
       city := default (city (fields inst)) (v_city validated) |} in
  run save inst;
  ret inst.

(** The request as the view reads it: the verb and the body. *)
Record request : Type := {
  method : http_method;
  parsed_body : parsed
}.

(** The three answers of the PUT branch that report an error. *)
Definition id_required : response :=
  JsonResponse [("msg", JStr "ID is required for update")] 400.

Definition employee_not_found (id : json) : response :=
  JsonResponse [("msg", JStr ("Employee with id " +:+ py_str id +:+ " not found"))] 404.

Definition something_went_wrong (e : exception) : response :=
  JsonResponse [("msg", JStr "Something went wrong"); ("error", JStr (exception_text e))] 500.

(** views.py, lines 14-38: the body of the [try]. *)
Definition EmployeesWork_try (request : request) : M (table Employees) response :=
  do updateData <- lift (JSONParser_parse (parsed_body request));
  do id <- lift (py_get updateData "id");
  if negb (truthy id) then
    ret id_required
  else
    do found <- try_except (do i <- objects_get "Employees" id; ret (Some i))
                           is_DoesNotExist (fun _ => ret None);
    match found with
    | None => ret (employee_not_found id)
    | Some inst =>
        match is_valid true updateData with
        | inl validated =>
            run update inst validated;
            ret (JsonResponse [("msg", JStr "Data Updated Successfully")] 200)
        | inr errors =>
            ret (JsonResponse [("msg", JStr "Update unsuccessful"); ("errors", JObj errors)] 400)
        end
    end.

(** views.py, lines 11-43. *)
Definition EmployeesWork (request : request) : M (table Employees) response :=
  match method request with
  | PUT =>
      try_except (EmployeesWork_try request) (fun _ => true)
        (fun e => ret (something_went_wrong e))
  | _ => ret (HttpResponse (Text "Method Not Allowed") 405)
  end.

(** The stored value of a model field, by the key the payload names it
    with. *)
Definition attr (key : string) (e : Employees) : option json :=
  if String.eqb key "name" then Some (JStr (name e))
  else if String.eqb key "phone" then Some (JStr (phone e))
  else if String.eqb key "city" then Some (JStr (city e))
  else None.

(** The request payload supplies [key]. *)
Definition supplies (request : request) (key : string) : bool :=
  match parsed_body request with
  | Decoded (JObj members) => bool_decide (is_Some (dict_get key members))
  | _ => false
  end.

End LearnUpdate.

(** ** deserializer/learn1 *)

Module Learn1.

(** Modelled from the spec: [learn1/seerializers.py] and [learn1/models.py]
    are not among the sources and the specification names no Student
    field.  The fields are the ones the client script [extApp1.py] posts
    (name, roll, city), each required, as serializer fields are unless
    declared otherwise. *)
Record Student : Type := {
  name : string;
  roll : Z;
  city : string
}.

Definition is_valid (data : json) : Student + dict :=
  match data with
  | JObj members =>
      let name := run_validation false true (CharField None) (dict_get "name" members) in
      let roll := run_validation false true IntegerField (dict_get "roll" members) in
      let city := run_validation false true (CharField None) (dict_get "city" members) in
      match name, roll, city with
      | Valid n, Valid r, Valid c => inl {| name := n; roll := r; city := c |}
      | _, _, _ => inr (error_of "name" name ++ error_of "roll" roll ++ error_of "city" city)%list
      end
  | _ => inr (not_a_dict data)
  end.
Arguments is_valid : simpl never.

Record request : Type := {
  method : http_method;
  parsed_body : parsed
}.

(** views.py, lines 13-39.  Neither [HttpResponse] of the POST branch is
    given a status, so both carry the default one, 200. *)
Definition student_list (req : request) : M (table Student) response :=
  match method req with
  | POST =>
      do python_data <- lift (JSONParser_parse (parsed_body req));
      match is_valid python_data with
      | inl validated =>
          do _ <- objects_create validated;
          let res := JObj [("msg", JStr "Data inserted Successfully")] in
          ret (HttpResponse (Json res) 200)
      | inr errors =>
          ret (HttpResponse (Json (JObj errors)) 200)
      end
  | _ => ret (JsonResponse [("msg", JStr "Only POST allowed")] 405)
  end.

End Learn1.

(** ** functionBasedApi/myapi *)

Module FunctionBased.

(** Modelled from the spec: [myapi/models.py] is not among the sources.
    Notes: title (text), completed (boolean), created_at (timestamp,
    store-assigned); [admin.py] lists the same columns. *)
Record Notes : Type := {
  title : string;
  completed : bool;
  created_at : Z
}.

(** Modelled from the spec: [myapi/serializers.py] is not among the
    sources.  The serializer validates the two writable fields, the title
    with a [CharField] and the flag with a [BooleanField], both required;
    [id] and [created_at] are assigned by the store and only read. *)
Record validated_data : Type := {
  v_title : string;
  v_completed : bool
}.

Definition is_valid (data : json) : validated_data + dict :=
  match data with
  | JObj members =>
      let title := run_validation false true (CharField None) (dict_get "title" members) in
      let completed := run_validation false true BooleanField (dict_get "completed" members) in
      match title, completed with
      | Valid t, Valid c => inl {| v_title := t; v_completed := c |}
      | _, _ => inr (error_of "title" title ++ error_of "completed" completed)%list
      end
  | _ => inr (not_a_dict data)
  end.
Arguments is_valid : simpl never.

(** [serializer.data] of one note. *)
Definition to_representation (note : instance Notes) : json :=
  JObj [("id", JNum (inst_id note));
        ("title", JStr (title (fields note)));
        ("completed", JBool (completed (fields note)));
        ("created_at", JNum (created_at (fields note)))].

(** The request as the view reads it: the verb, the query string as
    [request.query_params] (each key with the value [.get] returns for it),
    the body, and [now], the clock reading a created note is stamped with. *)
Record request : Type := {
  method : http_method;
  query_params : list (string * string);
  data : parsed;
  now : Z
}.

(** [request.query_params.get('id', id)], with [None] as [JNull]. *)
Definition query_or_path_id (request : request) (id : option Z) : json :=
  match dict_get "id" (query_params request) with
  | Some text => JStr text
  | None => match id with Some n => JNum n | None => JNull end
  end.

Definition Response_ (data : dict) (st : Z) : response := Response st (Json (JObj data)).

(** views.py, lines 10-22. *)
Definition notes_get (request : request) (id : option Z) : M (table Notes) response :=
  let pk := query_or_path_id request id in
  do early <- try_except
      (match pk with
       | JNull => ret None
       | _ =>
           do note <- objects_get "Notes" pk;
           ret (Some (Response_ [("data", to_representation note);
                                 ("msg", JStr "Note retrieved")] 200))
       end)
      is_DoesNotExist
      (fun _ => ret (Some (Response_ [("msg", JStr "Note not found")] HTTP_404_NOT_FOUND)));
  match early with
  | Some resp => ret resp
  | None =>
      do notes <- gets objects_all;
      ret (Response_ [("data", JArr (map to_representation notes));
                      ("msg", JStr "All notes retrieved")] HTTP_200_OK)
  end.

(** views.py, lines 24-33.  The success [Response] is given no status and
    carries the default, 200. *)
Definition notes_post (request : request) : M (table Notes) response :=
  do myData <- lift (JSONParser_parse (data request));
  match is_valid myData with
  | inl validated =>
      do _ <- objects_create {| title := v_title validated;
                                completed := v_completed validated;
                                created_at := now request |};
      ret (Response_ [("msg", JStr "Data is inserted successfully")] 200)
  | inr errors =>
      ret (Response_ [("error", JObj errors); ("msg", JStr "Data insertion unsuccessfull")]
             HTTP_400_BAD_REQUEST)
  end.

(** views.py, lines 36-50. *)
Definition notes_put (request : request) : M (table Notes) response :=
  do body <- lift (JSONParser_parse (data request));
  do pk <- lift (py_get body "id");
  match pk with
  | JNull =>
      ret (Response_ [("msg", JStr "ID is required for update operation")] HTTP_400_BAD_REQUEST)
  | _ =>
      try_except
        (do note <- objects_get "Notes" pk;
         match is_valid body with
         | inl validated =>
             run save (Instance (inst_id note)
                         {| title := v_title validated;
                            completed := v_completed validated;
                            created_at := created_at (fields note) |});
             ret (Response_ [("msg", JStr "Note updated succesfully")] HTTP_202_ACCEPTED)
         | inr errors =>
             ret (Response_ [("error", JObj errors); ("msg", JStr "Note update unsuccessfull")]
                    HTTP_400_BAD_REQUEST)
         end)
        is_DoesNotExist
        (fun _ => ret (Response_ [("msg", JStr "Note not found")] HTTP_404_NOT_FOUND))
  end.

(** views.py, lines 52-61. *)
Definition notes_delete (request : request) (id : option Z) : M (table Notes) response :=
  let pk := query_or_path_id request id in
  match pk with
  | JNull =>
      ret (Response_ [("msg", JStr "ID is required for deelete operation")] HTTP_400_BAD_REQUEST)
  | _ =>
      try_except
        (do note <- objects_get "Notes" pk;
         run delete_instance note;
         ret (Response_ [("msg", JStr "Note deleted successfully")] HTTP_204_NO_CONTENT))
        is_DoesNotExist
        (fun _ => ret (Response_ [("msg", JStr "Note not found")] HTTP_404_NOT_FOUND))
  end.

(** views.py, lines 8-61: [@api_view(['GET','POST','PUT','DELETE'])] admits
    the four verbs and answers 405 to any other. *)
Definition notesApi (request : request) (id : option Z) : M (table Notes) response :=
  match method request with
  | GET => handle_exception (notes_get request id)
  | POST => handle_exception (notes_post request)
  | PUT => handle_exception (notes_put request)
  | DELETE => handle_exception (notes_delete request id)
  | PATCH => ret (method_not_allowed PATCH)
  end.

(** urls.py, lines 4-7: [notes/] calls the view without an id,
    [notes/<int:id>/] with the (non-negative) integer of the path. *)
Inductive route : Type :=
| notes_root
| notes_item (id : N).

Definition urlpatterns (r : route) (request : request) : M (table Notes) response :=
  match r with
  | notes_root => notesApi request None
  | notes_item id => notesApi request (Some (Z.of_N id))
  end.

(** One call to the app: a URL and the request sent to it. *)
Definition call : Type := route * request.
Definition handle (c : call) : M (table Notes) response := urlpatterns (fst c) (snd c).

End FunctionBased.

(** ** GenericApiView/myApi *)

Module GenericApi.

(** The Employees model: [concreteView/apiView/models.py], lines 3-6, and
    the data model of the specification.  [myApi/models.py] itself is not
    among the sources. *)
Record Employees : Type := {
  name : string;
  age : Z;
  salary : Z
}.

Definition salary_default : Z := 10000.

(** Modelled from the spec: [myApi/serializers.py] is not among the
    sources.  The serializer validates the name with a [CharField] of at
    most 100 characters, the age and the salary with an [IntegerField]; name
    and age are required, the salary is optional, the model having a
    default; the DTO carries the store-assigned [id] next to them. *)
Record validated_data : Type := {
  v_name : option string;
  v_age : option Z;
  v_salary : option Z
}.

Definition is_valid (partial : bool) (data : json) : validated_data + dict :=
  match data with
  | JObj members =>
      let name := run_validation partial true (CharField (Some 100%nat)) (dict_get "name" members) in
      let age := run_validation partial true IntegerField (dict_get "age" members) in
      let salary := run_validation partial false IntegerField (dict_get "salary" members) in
      match (error_of "name" name ++ error_of "age" age ++ error_of "salary" salary)%list with
      | [] => inl {| v_name := value_of name; v_age := value_of age; v_salary := value_of salary |}
      | errors => inr errors
      end
  | _ => inr (not_a_dict data)
  end.
Arguments is_valid : simpl never.

(** [serializer.data] *)
Definition to_representation (e : instance Employees) : json :=
  JObj [("id", JNum (inst_id e));
        ("name", JStr (name (fields e)));
        ("age", JNum (age (fields e)));
        ("salary", JNum (salary (fields e)))].

(** [ModelSerializer.create]: the row from the validated data and the
    model defaults; a column left without a value violates NOT NULL. *)
Definition perform_create (validated : validated_data) : M (table Employees) (instance Employees) :=
  match v_name validated, v_age validated with
  | Some n, Some a =>
      objects_create
        {| name := n; age := a; salary := default salary_default (v_salary validated) |}
  | _, _ => raise (IntegrityError "NOT NULL constraint failed")
  end.

(** [ModelSerializer.update]: every validated attribute is set on the
    instance, which is then saved. *)
Definition updated (r : Employees) (validated : validated_data) : Employees :=
  {| name := default (name r) (v_name validated);
     age := default (age r) (v_age validated);
     salary := default (salary r) (v_salary validated) |}.

Definition perform_update (e : instance Employees) (validated : validated_data)
    : M (table Employees) (instance Employees) :=
  let e := Instance (inst_id e) (updated (fields e) validated) in
  run save e;
  ret e.

Record request : Type := {
  method : http_method;
  data : parsed
}.

(** What [get_object_or_404] raises with, and what the exception handler
    makes of it. *)
Definition no_match : string := "No Employees matches the given query.".

Definition not_found : response :=
  JsonResponse [("detail", JStr no_match)] HTTP_404_NOT_FOUND.

(** [GenericAPIView.get_object]: the row of [kwargs['pk']], or [Http404]. *)
Definition get_object (pk : Z) : M (table Employees) (instance Employees) :=
  do row <- gets (fun t => rows t !! pk);
  match row with
  | Some r => ret (Instance pk r)
  | None => raise (Http404 no_match)
  end.

(** The framework's mixins. *)
Definition list_ (request : request) : M (table Employees) response :=
  do all <- gets objects_all;
  ret (Response HTTP_200_OK (Json (JArr (map to_representation all)))).

Definition create (request : request) : M (table Employees) response :=
  do body <- lift (JSONParser_parse (data request));
  match is_valid false body with
  | inl validated =>
      do e <- perform_create validated;
      ret (Response HTTP_201_CREATED (Json (to_representation e)))
  | inr errors => raise (ValidationError errors)
  end.

Definition retrieve (request : request) (pk : Z) : M (table Employees) response :=
  do e <- get_object pk;
  ret (Response HTTP_200_OK (Json (to_representation e))).

Definition update (partial : bool) (request : request) (pk : Z) : M (table Employees) response :=
  do e <- get_object pk;
  do body <- lift (JSONParser_parse (data request));
  match is_valid partial body with
  | inl validated =>
      do e' <- perform_update e validated;
      ret (Response HTTP_200_OK (Json (to_representation e')))
  | inr errors => raise (ValidationError errors)
  end.

Definition partial_update (request : request) (pk : Z) : M (table Employees) response :=
  update true request pk.

Definition destroy (request : request) (pk : Z) : M (table Employees) response :=
  do e <- get_object pk;
  run delete_instance e;
  ret (Response HTTP_204_NO_CONTENT NoContent).

(** views.py, lines 14-33. *)
Definition EmployeesList (request : request) : M (table Employees) response :=
  match method request with
  | GET => handle_exception (list_ request)
  | POST => handle_exception (create request)
  | m => ret (method_not_allowed m)
  end.

(** views.py, lines 42-80. *)
Definition EmployeesManipulation (request : request) (pk : Z) : M (table Employees) response :=
  match method request with
  | GET => handle_exception (retrieve request pk)
  | PUT => handle_exception (update false request pk)
  | PATCH => handle_exception (partial_update request pk)
  | DELETE => handle_exception (destroy request pk)
  | m => ret (method_not_allowed m)
  end.

(** urls.py, lines 4-7. *)
Inductive route : Type :=
| employees_root
| employees_item (pk : N).

Definition urlpatterns (r : route) (request : request) : M (table Employees) response :=
  match r with
  | employees_root => EmployeesList request
  | employees_item pk => EmployeesManipulation request (Z.of_N pk)
  end.

Definition call : Type := route * request.
Definition handle (c : call) : M (table Employees) response := urlpatterns (fst c) (snd c).

Definition attr (key : string) (e : Employees) : option json :=
  if String.eqb key "name" then Some (JStr (name e))
  else if String.eqb key "age" then Some (JNum (age e))
  else if String.eqb key "salary" then Some (JNum (salary e))
  else None.

Definition supplies (request : request) (key : string) : bool :=
  match data request with
  | Decoded (JObj members) => bool_decide (is_Some (dict_get key members))
  | _ => false
  end.

End GenericApi.

(** ** concreteView/apiView *)

Module ConcreteView.

(** views.py, lines 6-13: [ListCreateAPIView] and
    [RetrieveUpdateDestroyAPIView] bind the same mixins to the verbs, over
    the same model (models.py, lines 3-6). *)
Definition listCreateEmployees (request : GenericApi.request)
    : M (table GenericApi.Employees) response :=
  match GenericApi.method request with
  | GET => handle_exception (GenericApi.list_ request)
  | POST => handle_exception (GenericApi.create request)
  | m => ret (method_not_allowed m)
  end.

Definition RetrieveUpdateDestroyEmployees (request : GenericApi.request) (pk : Z)
    : M (table GenericApi.Employees) response :=
  match GenericApi.method request with
  | GET => handle_exception (GenericApi.retrieve request pk)
  | PUT => handle_exception (GenericApi.update false request pk)
  | PATCH => handle_exception (GenericApi.partial_update request pk)
  | DELETE => handle_exception (GenericApi.destroy request pk)
  | m => ret (method_not_allowed m)
  end.

End ConcreteView.

(** ** Stores over time *)

(** Keys are handed out by the counter: every stored key lies below it. *)
Definition wf {R} (t : table R) : Prop :=
  forall k, is_Some (rows t !! k) -> k < next_id t.

(** What one request can do to a table: nothing, create a row under the
    next key, overwrite a stored row, or delete a row. *)
Inductive effect {R} (t : table R) : table R -> Prop :=
| effect_none : effect t t
| effect_create r :
    effect t (Table (<[next_id t := r]> (rows t)) (next_id t + 1))
| effect_update n r :
    is_Some (rows t !! n) -> effect t (Table (<[n := r]> (rows t)) (next_id t))
| effect_delete n :
    effect t (Table (delete n (rows t)) (next_id t)).

(** The table after serving the calls in order. *)
Definition serve_all {S C} (handler : C -> M S response) (calls : list C) (db : S) : S :=
  fold_left (fun db c => snd (serve (handler c) db)) calls db.


(** ** Sample stores and requests *)

Module Samples.

(** learnUpdate: two employees, one of them under key 0. *)
Definition office : table LearnUpdate.Employees :=
  Table (<[0 := {| LearnUpdate.name := "Zed"; LearnUpdate.phone := "000";
                   LearnUpdate.city := "Oslo" |}]>
         (<[3 := {| LearnUpdate.name := "Ann"; LearnUpdate.phone := "123";
                    LearnUpdate.city := "Paris" |}]> ∅)) 4.

Definition put (body : json) : LearnUpdate.request :=
  {| LearnUpdate.method := PUT; LearnUpdate.parsed_body := Decoded body |}.

(** [{"id": 3, "city": "Rome"}] *)
Definition put_city : LearnUpdate.request :=
  put (JObj [("id", JNum 3); ("city", JStr "Rome")]).

(** [{"name": "Bob"}] *)
Definition put_without_id : LearnUpdate.request :=
  put (JObj [("name", JStr "Bob")]).








(** learn1: [{"roll": 123, "city": "New York"}], the payload of
    [extApp1.py] without its name. *)
Definition post_student_without_name : Learn1.request :=
  {| Learn1.method := POST;
     Learn1.parsed_body := Decoded (JObj [("roll", JNum 123); ("city", JStr "New York")]) |}.

Definition no_students : table Learn1.Student := Table ∅ 1.

(** One student on the roll, and the payload of [extApp1.py]. *)
Definition amy : Learn1.Student :=
  {| Learn1.name := "Amy"; Learn1.roll := 7; Learn1.city := "Leeds" |}.

Definition john_doe : Learn1.Student :=
  {| Learn1.name := "John Doe"; Learn1.roll := 123; Learn1.city := "New York" |}.

Definition classroom : table Learn1.Student := Table (<[1 := amy]> ∅) 2.

Definition post_student : Learn1.request :=
  {| Learn1.method := POST;
     Learn1.parsed_body :=
       Decoded (JObj [("name", JStr "John Doe"); ("roll", JNum 123);
                      ("city", JStr "New York")]) |}.

(** myapi: one note under key 1. *)
Definition notebook : table FunctionBased.Notes :=
  Table (<[1 := {| FunctionBased.title := "Buy milk"; FunctionBased.completed := false;
                   FunctionBased.created_at := 100 |}]> ∅) 2.

(** Two notes, under keys 1 and 2. *)
Definition call_bob : FunctionBased.Notes :=
  {| FunctionBased.title := "Call Bob"; FunctionBased.completed := true;
     FunctionBased.created_at := 150 |}.

Definition two_notes : table FunctionBased.Notes :=
  Table (<[2 := call_bob]> (rows notebook)) 3.

Definition notes_request (m : http_method) (query : list (string * string)) (body : json)
    : FunctionBased.request :=
  {| FunctionBased.method := m; FunctionBased.query_params := query;
     FunctionBased.data := Decoded body; FunctionBased.now := 200 |}.

(** POST [{"title": "Call Bob", "completed": false}] *)
Definition post_note : FunctionBased.request :=
  notes_request POST [] (JObj [("title", JStr "Call Bob"); ("completed", JBool false)]).

(** PUT [{"title": "Buy bread", "completed": true}], no id in the body. *)
Definition put_note_without_id : FunctionBased.request :=
  notes_request PUT [] (JObj [("title", JStr "Buy bread"); ("completed", JBool true)]).

(** DELETE and GET without query parameters or body. *)
Definition delete_note : FunctionBased.request := notes_request DELETE [] JNull.
Definition get_note : FunctionBased.request := notes_request GET [] JNull.


(** myApi: the scenario of the specification. *)
Definition staff : table GenericApi.Employees := Table ∅ 1.

Definition employees_request (m : http_method) (body : json) : GenericApi.request :=
  {| GenericApi.method := m; GenericApi.data := Decoded body |}.

(** POST [{"name": "Ann", "age": 30, "salary": 50000}] *)
Definition post_ann : GenericApi.request :=
  employees_request POST
    (JObj [("name", JStr "Ann"); ("age", JNum 30); ("salary", JNum 50000)]).


(** PATCH [{"salary": 70000}] *)
Definition patch_salary : GenericApi.request :=
  employees_request PATCH (JObj [("salary", JNum 70000)]).

Definition get_employee : GenericApi.request := employees_request GET JNull.
Definition delete_employee : GenericApi.request := employees_request DELETE JNull.

Definition ann : GenericApi.Employees :=
  {| GenericApi.name := "Ann"; GenericApi.age := 30; GenericApi.salary := 50000 |}.

Definition staff_with_ann : table GenericApi.Employees := Table (<[1 := ann]> ∅) 2.

End Samples.

(** ** Rows after an update *)

(** The row [EmployeesSerializer.update] (learnUpdate) leaves behind. *)
Definition work_updated (r : LearnUpdate.Employees) (validated : LearnUpdate.validated_data)
    : LearnUpdate.Employees :=
  {| LearnUpdate.name := default (LearnUpdate.name r) (LearnUpdate.v_name validated);
     LearnUpdate.phone := default (LearnUpdate.phone r) (LearnUpdate.v_phone validated);
     LearnUpdate.city := default (LearnUpdate.city r) (LearnUpdate.v_city validated) |}.

(** The row the PUT branch of [notesApi] leaves behind: the validated title
    and flag, the creation stamp of the stored note. *)
Definition note_updated (old : FunctionBased.Notes) (validated : FunctionBased.validated_data)
    : FunctionBased.Notes :=
  {| FunctionBased.title := FunctionBased.v_title validated;
     FunctionBased.completed := FunctionBased.v_completed validated;
     FunctionBased.created_at := FunctionBased.created_at old |}.


(** * Properties *)

(** ** The ORM calls *)

Section Orm.
Context {R : Type}.
Implicit Types (t : table R) (v : json) (i : instance R).

Lemma objects_get_ok model v t i t' :
  objects_get model v t = (Ok i, t') ->
  t' = t /\ rows t !! inst_id i = Some (fields i) /\ to_pk v = Ok (inst_id i).
Proof.
  unfold objects_get, bind, lift, gets, ret, raise.
  destruct v as [|b|n|s|items|members]; simpl; try discriminate.
  - destruct (rows t !! _) eqn:E; inversion 1; subst; simpl; auto.
  - destruct (rows t !! _) eqn:E; inversion 1; subst; simpl; auto.
  - destruct (int_of_str s) as [n|] eqn:Es; simpl; try discriminate.
    destruct (rows t !! n) eqn:E; inversion 1; subst; simpl; auto.
Qed.

Lemma objects_get_raise model v t e t' :
  objects_get model v t = (Raise e, t') -> t' = t.
Proof.
  unfold objects_get, bind, lift, gets, ret, raise.
  destruct v as [|b|n|s|items|members]; simpl;
    try (inversion 1; subst; reflexivity).
  - destruct (rows t !! _); inversion 1; subst; reflexivity.
  - destruct (rows t !! _); inversion 1; subst; reflexivity.
  - destruct (int_of_str s) as [n|]; simpl; try (inversion 1; subst; reflexivity).
    destruct (rows t !! n); inversion 1; subst; reflexivity.
Qed.

Lemma objects_get_raises model v t e t' :
  objects_get model v t = (Raise e, t') ->
  (exists msg, e = ValueError msg) \/ (exists msg, e = TypeError msg) \/ e = DoesNotExist model.
Proof.
  unfold objects_get, bind, lift, gets, ret, raise.
  destruct v as [|b|n|s|items|members]; simpl;
    try (intros [= <- _]; eauto; fail).
  - destruct (rows t !! _); intros [= <- _]; eauto.
  - destruct (rows t !! _); intros [= <- _]; eauto.
  - destruct (int_of_str s) as [n|]; simpl; [|intros [= <- _]; eauto].
    destruct (rows t !! n); intros [= <- _]; eauto.
Qed.

Lemma objects_get_found model v t n r :
  v <> JNull -> to_pk v = Ok n -> rows t !! n = Some r ->
  objects_get model v t = (Ok (Instance n r), t).
Proof.
  intros Hv Hn Hr. unfold objects_get, bind, lift, gets, ret.
  destruct v; try congruence; rewrite Hn; simpl; rewrite Hr; reflexivity.
Qed.

Lemma objects_get_missing model v t n :
  to_pk v = Ok n -> rows t !! n = None ->
  objects_get model v t = (Raise (DoesNotExist model), t).
Proof.
  intros Hn Hr. unfold objects_get, bind, lift, gets, ret, raise.
  destruct v; try reflexivity; rewrite Hn; simpl; rewrite Hr; reflexivity.
Qed.

End Orm.

(** ** Serving a view *)

Lemma serve_snd {S} (view : M S response) db : snd (serve view db) = snd (view db).
Proof. unfold serve. destruct (view db) as [[resp|e] db']; reflexivity. Qed.

Lemma handle_exception_snd {S} (view : M S response) db :
  snd (handle_exception view db) = snd (view db).
Proof.
  unfold handle_exception. destruct (view db) as [[resp|e] db']; [reflexivity|].
  destruct e; reflexivity.
Qed.

(** ** Stores over time *)

Section Effects.
Context {R : Type}.
Implicit Types (t : table R).

Lemma effect_wf t t' : effect t t' -> wf t -> wf t'.
Proof.
  intros He Hwf k. destruct He as [|r|n r Hn|n]; simpl.
  - apply Hwf.
  - rewrite lookup_insert. case_decide as Hk.
    + intros _. lia.
    + intros H. apply Hwf in H. lia.
  - rewrite lookup_insert. case_decide as Hk.
    + intros _. subst. apply Hwf, Hn.
    + apply Hwf.
  - rewrite lookup_delete. case_decide as Hk.
    + intros [? [=]].
    + apply Hwf.
Qed.




End Effects.

Lemma singleton_table_wf {R} (k : Z) (r : R) : wf (Table (<[k := r]> ∅) (k + 1)).
Proof.
  intros j. simpl. rewrite lookup_insert. case_decide as Hj.
  - intros _. lia.
  - rewrite lookup_empty. intros [? [=]].
Qed.

(** ** Field validation *)

Lemma dict_get_not_supplied {A} key (members : list (string * A)) :
  bool_decide (is_Some (dict_get key members)) = false -> dict_get key members = None.
Proof.
  intros H. apply bool_decide_eq_false in H.
  destruct (dict_get key members); [exfalso; apply H; eauto | reflexivity].
Qed.


(** A field that is skipped was not supplied. *)
Lemma CharField_skipped partial required max_length supplied :
  run_validation partial required (CharField max_length) supplied = Skipped ->
  supplied = None /\ (partial = true \/ required = false).
Proof.
  unfold run_validation, CharField, validate_text.
  destruct supplied as [[|b|n|s'|items|members]|]; try discriminate.
  - destruct (text_errors max_length (pretty n)); discriminate.
  - destruct (String.eqb (py_strip s') EmptyString); [discriminate|].
    destruct (text_errors max_length (py_strip s')); discriminate.
  - destruct partial; [auto|destruct required; [discriminate|auto]].
Qed.

Lemma IntegerField_skipped partial required supplied :
  run_validation partial required IntegerField supplied = Skipped ->
  supplied = None /\ (partial = true \/ required = false).
Proof.
  unfold run_validation, IntegerField.
  destruct supplied as [[|b|n|s'|items|members]|]; try discriminate.
  - destruct (1000 <? py_len s')%nat; [discriminate|].
    destruct (int_of_str (drop_decimal s')); discriminate.
  - destruct partial; [auto|destruct required; [discriminate|auto]].
Qed.


(** ** Text that is no number *)











(** ** deserializer/learnUpdate *)

Module LearnUpdateFacts.
Import LearnUpdate.

(** A key the payload leaves out is absent from the validated data. *)
Lemma work_partial_skips members validated :
  is_valid true (JObj members) = inl validated ->
  (dict_get "name" members = None -> v_name validated = None) /\
  (dict_get "phone" members = None -> v_phone validated = None) /\
  (dict_get "city" members = None -> v_city validated = None).
Proof.
  unfold is_valid.
  destruct (_ ++ _)%list; [|discriminate].
  intros [= <-]; simpl.
  repeat split; intros ->; reflexivity.
Qed.

(** Every outcome of the PUT branch, with the store it leaves. *)
Lemma EmployeesWork_put request t :
  method request = PUT ->
  let '(resp, t') := serve (EmployeesWork request) t in
  (t' = t /\ status resp <> 200) \/
  (exists members id inst validated,
      parsed_body request = Decoded (JObj members) /\
      py_get (JObj members) "id" = Ok id /\ truthy id = true /\
      to_pk id = Ok (inst_id inst) /\
      rows t !! inst_id inst = Some (fields inst) /\
      is_valid true (JObj members) = inl validated /\
      resp = JsonResponse [("msg", JStr "Data Updated Successfully")] 200 /\
      t' = snd (update inst validated t)).
Proof.
  intros Hm. unfold serve, EmployeesWork, try_except. rewrite Hm.
  unfold EmployeesWork_try, bind, lift.
  destruct (parsed_body request) as [updateData|detail] eqn:Hbody; simpl;
    [|left; split; [reflexivity|discriminate]].
  destruct (py_get updateData "id") as [id|e] eqn:Hid; simpl;
    [|left; split; [reflexivity|discriminate]].
  destruct (truthy id) eqn:Htruthy; simpl;
    [|left; split; [reflexivity|discriminate]].
  unfold try_except, bind.
  destruct (objects_get "Employees" id t) as [[inst|e] t1] eqn:Hget.
  - apply objects_get_ok in Hget as (-> & Hrow & Hpk). simpl.
    destruct (is_valid true updateData) as [validated|errors] eqn:Hvalid; simpl;
      [|left; split; [reflexivity|discriminate]].
    right. destruct updateData; try discriminate.
    exists members, id, inst, validated. repeat split; assumption.
  - apply objects_get_raise in Hget as ->.
    destruct (is_DoesNotExist e); simpl; left; split; try reflexivity; discriminate.
Qed.





(** ... and the PUT branch lets nothing escape to the framework. *)
Lemma put_never_escapes request t :
  method request = PUT ->
  exists resp t', EmployeesWork request t = (Ok resp, t').
Proof.
  intros Hm. unfold EmployeesWork, try_except. rewrite Hm.
  destruct (EmployeesWork_try request t) as [[resp|e] t']; eauto.
Qed.

End LearnUpdateFacts.

(** ** GenericApiView/myApi *)

Module GenericApiFacts.
Import GenericApi.

Lemma generic_partial_skips members validated :
  is_valid true (JObj members) = inl validated ->
  (dict_get "name" members = None -> v_name validated = None) /\
  (dict_get "age" members = None -> v_age validated = None) /\
  (dict_get "salary" members = None -> v_salary validated = None).
Proof.
  unfold is_valid.
  destruct (_ ++ _)%list; [|discriminate].
  intros [= <-]; simpl.
  repeat split; intros ->; reflexivity.
Qed.

Lemma get_object_found pk r t :
  rows t !! pk = Some r -> get_object pk t = (Ok (Instance pk r), t).
Proof. intros H. unfold get_object, bind, gets, ret. rewrite H. reflexivity. Qed.

Lemma get_object_missing pk t :
  rows t !! pk = None -> get_object pk t = (Raise (Http404 no_match), t).
Proof. intros H. unfold get_object, bind, gets, raise. rewrite H. reflexivity. Qed.

(** Every outcome of PUT ([partial = false]) and PATCH ([partial = true]). *)
Lemma update_outcomes partial request pk t :
  let '(resp, t') := serve (handle_exception (update partial request pk)) t in
  (t' = t /\ status resp <> 200) \/
  (exists members r validated,
      data request = Decoded (JObj members) /\
      rows t !! pk = Some r /\
      is_valid partial (JObj members) = inl validated /\
      resp = Response 200 (Json (to_representation (Instance pk (updated r validated)))) /\
      t' = Table (<[pk := updated r validated]> (rows t)) (next_id t)).
Proof.
  unfold serve, handle_exception, update, bind.
  destruct (rows t !! pk) as [r|] eqn:Hrow.
  - rewrite (get_object_found _ _ _ Hrow). unfold lift.
    destruct (data request) as [body|detail] eqn:Hdata; simpl.
    + destruct (is_valid partial body) as [validated|errors] eqn:Hvalid; simpl.
      * right. destruct body; try discriminate.
        exists members, r, validated. repeat split; assumption.
      * left. split; [reflexivity|discriminate].
    + left. split; [reflexivity|discriminate].
  - rewrite (get_object_missing _ _ Hrow). simpl.
    left. split; [reflexivity|discriminate].
Qed.

(** A full payload that validates has a valid name and a valid age, and a
    salary that is valid or left out. *)
Lemma is_valid_full members validated :
  is_valid false (JObj members) = inl validated ->
  exists n a,
    run_validation false true (CharField (Some 100%nat)) (dict_get "name" members) = Valid n /\
    v_name validated = Some n /\
    run_validation false true IntegerField (dict_get "age" members) = Valid a /\
    v_age validated = Some a /\
    v_salary validated
    = value_of (run_validation false false IntegerField (dict_get "salary" members)).
Proof.
  unfold is_valid.
  destruct (run_validation false true (CharField (Some 100%nat)) (dict_get "name" members))
    as [|n|msg] eqn:Hn; simpl; try discriminate.
  { apply CharField_skipped in Hn as [_ [?|?]]; discriminate. }
  destruct (run_validation false true IntegerField (dict_get "age" members))
    as [|a|msg] eqn:Ha; simpl; try discriminate.
  { apply IntegerField_skipped in Ha as [_ [?|?]]; discriminate. }
  destruct (run_validation false false IntegerField (dict_get "salary" members))
    as [|s|msg] eqn:Hs; simpl; try discriminate; intros [= <-]; simpl;
    exists n, a; repeat split; reflexivity.
Qed.

Lemma create_valid request t members validated :
  method request = POST ->
  data request = Decoded (JObj members) ->
  is_valid false (JObj members) = inl validated ->
  exists n a,
    v_name validated = Some n /\ v_age validated = Some a /\
    let row := {| name := n; age := a;
                  salary := default salary_default (v_salary validated) |} in
    serve (EmployeesList request) t
    = (Response HTTP_201_CREATED (Json (to_representation (Instance (next_id t) row))),
       Table (<[next_id t := row]> (rows t)) (next_id t + 1)).
Proof.
  intros Hm Hdata Hvalid.
  destruct (is_valid_full _ _ Hvalid) as (n & a & _ & Hn & _ & Ha & _).
  exists n, a. repeat split; try assumption.
  unfold serve, EmployeesList. rewrite Hm.
  unfold handle_exception, create, bind, lift. rewrite Hdata. simpl.
  rewrite Hvalid. simpl. unfold perform_create. rewrite Hn, Ha. reflexivity.
Qed.

Lemma create_invalid request t body errors :
  method request = POST ->
  data request = Decoded body ->
  is_valid false body = inr errors ->
  serve (EmployeesList request) t = (JsonResponse errors HTTP_400_BAD_REQUEST, t).
Proof.
  intros Hm Hdata Hvalid. unfold serve, EmployeesList. rewrite Hm.
  unfold handle_exception, create, bind, lift. rewrite Hdata. simpl.
  rewrite Hvalid. reflexivity.
Qed.

Lemma retrieve_found request pk t r :
  method request = GET ->
  rows t !! pk = Some r ->
  serve (EmployeesManipulation request pk) t
  = (Response HTTP_200_OK (Json (to_representation (Instance pk r))), t).
Proof.
  intros Hm Hrow. unfold serve, EmployeesManipulation. rewrite Hm.
  unfold handle_exception, retrieve, bind. rewrite (get_object_found _ _ _ Hrow).
  reflexivity.
Qed.

(** GET, PUT, PATCH and DELETE all resolve the row first. *)
Lemma item_missing request pk t :
  method request <> POST ->
  rows t !! pk = None ->
  serve (EmployeesManipulation request pk) t = (not_found, t).
Proof.
  intros Hm Hrow. unfold serve, EmployeesManipulation.
  destruct (method request); try congruence;
    unfold handle_exception, retrieve, partial_update, update, destroy, bind;
    rewrite (get_object_missing _ _ Hrow); reflexivity.
Qed.

Lemma destroy_found request pk t r :
  method request = DELETE ->
  rows t !! pk = Some r ->
  serve (EmployeesManipulation request pk) t
  = (Response HTTP_204_NO_CONTENT NoContent, Table (delete pk (rows t)) (next_id t)).
Proof.
  intros Hm Hrow. unfold serve, EmployeesManipulation. rewrite Hm.
  unfold handle_exception, destroy, bind. rewrite (get_object_found _ _ _ Hrow).
  reflexivity.
Qed.

Lemma urlpatterns_effect r request t :
  effect t (snd (serve (urlpatterns r request) t)).
Proof.
  destruct r as [|pk]; simpl.
  - rewrite serve_snd. unfold EmployeesList.
    destruct (method request); try rewrite handle_exception_snd; try apply effect_none.
    unfold create, bind, lift.
    destruct (data request) as [body|detail]; simpl; [|apply effect_none].
    destruct (is_valid false body) as [validated|errors]; simpl; [|apply effect_none].
    unfold perform_create.
    destruct (v_name validated), (v_age validated); simpl;
      try apply effect_none; apply effect_create.
  - destruct (rows t !! Z.of_N pk) as [row|] eqn:Hrow.
    + unfold EmployeesManipulation.
      destruct (method request) eqn:Hm.
      * rewrite serve_snd, handle_exception_snd. unfold retrieve, bind.
        rewrite (get_object_found _ _ _ Hrow). apply effect_none.
      * apply effect_none.
      * pose proof (update_outcomes false request (Z.of_N pk) t) as H.
        destruct (serve _ t) as [resp t']. cbv beta iota in H. simpl.
        destruct H as [[-> _]|(? & ? & ? & _ & _ & _ & _ & ->)];
          [apply effect_none|apply effect_update; rewrite Hrow; eauto].
      * pose proof (update_outcomes true request (Z.of_N pk) t) as H.
        unfold partial_update.
        destruct (serve _ t) as [resp t']. cbv beta iota in H. simpl.
        destruct H as [[-> _]|(? & ? & ? & _ & _ & _ & _ & ->)];
          [apply effect_none|apply effect_update; rewrite Hrow; eauto].
      * rewrite serve_snd, handle_exception_snd. unfold destroy, bind.
        rewrite (get_object_found _ _ _ Hrow). apply effect_delete.
    + destruct (decide (method request = POST)) as [Hm|Hm].
      * unfold EmployeesManipulation. rewrite Hm. apply effect_none.
      * rewrite (item_missing _ _ _ Hm Hrow). apply effect_none.
Qed.

(** The concrete generic views of [concreteView/apiView] are the same
    functions. *)
Lemma concrete_views_coincide :
  ConcreteView.listCreateEmployees = EmployeesList
  /\ ConcreteView.RetrieveUpdateDestroyEmployees = EmployeesManipulation.
Proof. split; reflexivity. Qed.

End GenericApiFacts.

(** ** functionBasedApi/myapi *)

Module FunctionBasedFacts.
Import FunctionBased.

Lemma to_pk_not_None v n : to_pk v = Ok n -> v <> JNull.
Proof. intros H ->. discriminate. Qed.

Ltac resolve_pk pk H :=
  let E := fresh "E" in
  pose proof (to_pk_not_None _ _ H) as E;
  destruct pk; [congruence| | | | | ]; clear E.

Lemma get_found request id t n r :
  method request = GET ->
  to_pk (query_or_path_id request id) = Ok n ->
  rows t !! n = Some r ->
  serve (notesApi request id) t
  = (Response_ [("data", to_representation (Instance n r)); ("msg", JStr "Note retrieved")] 200, t).
Proof.
  intros Hm Hpk Hrow. unfold serve, notesApi. rewrite Hm.
  unfold handle_exception, notes_get, try_except, bind.
  pose proof (objects_get_found "Notes" _ t n r (to_pk_not_None _ _ Hpk) Hpk Hrow) as Hget.
  resolve_pk (query_or_path_id request id) Hpk; rewrite Hget; reflexivity.
Qed.


Lemma delete_found request id t n r :
  method request = DELETE ->
  to_pk (query_or_path_id request id) = Ok n ->
  rows t !! n = Some r ->
  serve (notesApi request id) t
  = (Response_ [("msg", JStr "Note deleted successfully")] HTTP_204_NO_CONTENT,
     Table (delete n (rows t)) (next_id t)).
Proof.
  intros Hm Hpk Hrow. unfold serve, notesApi. rewrite Hm.
  unfold handle_exception, notes_delete, try_except, bind.
  pose proof (objects_get_found "Notes" _ t n r (to_pk_not_None _ _ Hpk) Hpk Hrow) as Hget.
  resolve_pk (query_or_path_id request id) Hpk; rewrite Hget; reflexivity.
Qed.

Lemma delete_missing request id t n :
  method request = DELETE ->
  to_pk (query_or_path_id request id) = Ok n ->
  rows t !! n = None ->
  serve (notesApi request id) t
  = (Response_ [("msg", JStr "Note not found")] HTTP_404_NOT_FOUND, t).
Proof.
  intros Hm Hpk Hrow. unfold serve, notesApi. rewrite Hm.
  unfold handle_exception, notes_delete, try_except, bind.
  pose proof (objects_get_missing "Notes" _ t n Hpk Hrow) as Hget.
  resolve_pk (query_or_path_id request id) Hpk; rewrite Hget; reflexivity.
Qed.

Lemma notes_put_missing request id t members pk n :
  method request = PUT ->
  data request = Decoded (JObj members) ->
  dict_get "id" members = Some pk ->
  to_pk pk = Ok n ->
  rows t !! n = None ->
  serve (notesApi request id) t
  = (Response_ [("msg", JStr "Note not found")] HTTP_404_NOT_FOUND, t).
Proof.
  intros Hm Hdata Hid Hpk Hrow. unfold serve, notesApi. rewrite Hm.
  unfold handle_exception, notes_put, try_except, bind, lift.
  rewrite Hdata. simpl. rewrite Hid. simpl.
  pose proof (objects_get_missing "Notes" _ t n Hpk Hrow) as Hget.
  resolve_pk pk Hpk; rewrite Hget; reflexivity.
Qed.

Lemma put_without_id request id t members :
  method request = PUT ->
  data request = Decoded (JObj members) ->
  dict_get "id" members = None ->
  serve (notesApi request id) t
  = (Response_ [("msg", JStr "ID is required for update operation")] HTTP_400_BAD_REQUEST, t).
Proof.
  intros Hm Hdata Hid. unfold serve, notesApi. rewrite Hm.
  unfold handle_exception, notes_put, try_except, bind, lift.
  rewrite Hdata. simpl. rewrite Hid. reflexivity.
Qed.

Lemma notes_post_valid request id t body validated :
  method request = POST ->
  data request = Decoded body ->
  is_valid body = inl validated ->
  serve (notesApi request id) t
  = (Response_ [("msg", JStr "Data is inserted successfully")] HTTP_200_OK,
     Table (<[next_id t := {| title := v_title validated;
                              completed := v_completed validated;
                              created_at := now request |}]> (rows t))
           (next_id t + 1)).
Proof.
  intros Hm Hdata Hvalid. unfold serve, notesApi. rewrite Hm.
  unfold handle_exception, notes_post, bind, lift.
  rewrite Hdata. simpl. rewrite Hvalid. reflexivity.
Qed.

Lemma notes_post_invalid request id t body errors :
  method request = POST ->
  data request = Decoded body ->
  is_valid body = inr errors ->
  serve (notesApi request id) t
  = (Response_ [("error", JObj errors); ("msg", JStr "Data insertion unsuccessfull")]
       HTTP_400_BAD_REQUEST, t).
Proof.
  intros Hm Hdata Hvalid. unfold serve, notesApi. rewrite Hm.
  unfold handle_exception, notes_post, bind, lift.
  rewrite Hdata. simpl. rewrite Hvalid. reflexivity.
Qed.

(** Whatever the verb, one call has one of the four effects on the table. *)
Lemma notesApi_effect request id t : effect t (snd (serve (notesApi request id) t)).
Proof.
  rewrite serve_snd. unfold notesApi.
  destruct (method request); try rewrite handle_exception_snd.
  - (* GET *)
    unfold notes_get, try_except, bind.
    destruct (query_or_path_id request id) eqn:Hpk; simpl; try apply effect_none;
      match goal with
      | |- context [objects_get ?m ?v t] =>
          destruct (objects_get m v t) as [[note|e] t1] eqn:Hget;
          [apply objects_get_ok in Hget as (-> & _ & _)
          |apply objects_get_raise in Hget as ->; destruct (is_DoesNotExist e)]
      end; simpl; apply effect_none.
  - (* POST *)
    unfold notes_post, bind, lift.
    destruct (data request) as [body|detail]; simpl; [|apply effect_none].
    destruct (is_valid body); simpl; [apply effect_create|apply effect_none].
  - (* PUT *)
    unfold notes_put, bind, lift.
    destruct (data request) as [body|detail]; simpl; [|apply effect_none].
    destruct (py_get body "id") as [pk|e]; simpl; [|apply effect_none].
    unfold try_except, bind.
    destruct pk eqn:Hpk; simpl; try apply effect_none;
      match goal with
      | |- context [objects_get ?m ?v t] =>
          destruct (objects_get m v t) as [[note|e] t1] eqn:Hget;
          [apply objects_get_ok in Hget as (-> & Hrow & _)
          |apply objects_get_raise in Hget as ->; destruct (is_DoesNotExist e);
           simpl; apply effect_none]
      end;
      (destruct (is_valid body); simpl;
       [apply effect_update; rewrite Hrow; eauto | apply effect_none]).
  - (* PATCH *)
    apply effect_none.
  - (* DELETE *)
    unfold notes_delete, try_except, bind.
    destruct (query_or_path_id request id) eqn:Hpk; simpl; try apply effect_none;
      match goal with
      | |- context [objects_get ?m ?v t] =>
          destruct (objects_get m v t) as [[note|e] t1] eqn:Hget;
          [apply objects_get_ok in Hget as (-> & _ & _); simpl; apply effect_delete
          |apply objects_get_raise in Hget as ->; destruct (is_DoesNotExist e);
           simpl; apply effect_none]
      end.
Qed.

(** The status codes of the dispatcher, verb by verb; 500 stands for an
    exception that no [except] clause of the view catches. *)
Lemma notesApi_status_codes request id t :
  let st := status (fst (serve (notesApi request id) t)) in
  match method request with
  | GET => st = 200 \/ st = 404 \/ st = 500
  | POST => st = 200 \/ st = 400 \/ st = 500
  | PUT => st = 202 \/ st = 400 \/ st = 404 \/ st = 500
  | DELETE => st = 204 \/ st = 400 \/ st = 404 \/ st = 500
  | PATCH => st = 405
  end.
Proof.
  cbv zeta. unfold serve, notesApi.
  destruct (method request); unfold handle_exception; [| | | reflexivity |].
  - unfold notes_get, try_except, bind.
    destruct (query_or_path_id request id) eqn:Hpk; simpl; auto;
      match goal with
      | |- context [objects_get ?m ?v t] =>
          destruct (objects_get m v t) as [[note|e] t1] eqn:Hget;
          [simpl; auto
          |apply objects_get_raises in Hget as [[? ->]|[[? ->]| ->]]; simpl; auto]
      end.
  - unfold notes_post, bind, lift.
    destruct (data request) as [body|detail]; simpl; [|auto].
    destruct (is_valid body); simpl; auto.
  - unfold notes_put, bind, lift.
    destruct (data request) as [body|detail]; simpl; [|auto].
    destruct (py_get body "id") as [pk|e] eqn:Hid; simpl.
    2:{ destruct body; simpl in Hid; try discriminate; injection Hid as <-; simpl; auto. }
    unfold try_except, bind.
    destruct pk eqn:Hpk; simpl; auto 6;
      match goal with
      | |- context [objects_get ?m ?v t] =>
          destruct (objects_get m v t) as [[note|e] t1] eqn:Hget;
          [destruct (is_valid body); simpl; auto 6
          |apply objects_get_raises in Hget as [[? ->]|[[? ->]| ->]]; simpl; auto 6]
      end.
  - unfold notes_delete, try_except, bind.
    destruct (query_or_path_id request id) eqn:Hpk; simpl; auto 6;
      match goal with
      | |- context [objects_get ?m ?v t] =>
          destruct (objects_get m v t) as [[note|e] t1] eqn:Hget;
          [simpl; auto 6
          |apply objects_get_raises in Hget as [[? ->]|[[? ->]| ->]]; simpl; auto 6]
      end.
Qed.

End FunctionBasedFacts.

(** ** deserializer/learn1 *)

Module Learn1Facts.
Import Learn1.

(** Whatever the payload, the POST branch answers with status 200: a
    rejected payload is told apart from a stored one by the body alone. *)
Lemma student_post_status request t body :
  method request = POST ->
  parsed_body request = Decoded body ->
  status (fst (serve (student_list request) t)) = 200.
Proof.
  intros Hm Hbody. unfold serve, student_list. rewrite Hm.
  unfold bind, lift. rewrite Hbody. simpl.
  destruct (is_valid body); reflexivity.
Qed.

Lemma student_post_invalid request t body errors :
  method request = POST ->
  parsed_body request = Decoded body ->
  is_valid body = inr errors ->
  serve (student_list request) t = (Response 200 (Json (JObj errors)), t).
Proof.
  intros Hm Hbody Hvalid. unfold serve, student_list. rewrite Hm.
  unfold bind, lift. rewrite Hbody. simpl. rewrite Hvalid. reflexivity.
Qed.

Lemma student_post_valid request t body validated :
  method request = POST ->
  parsed_body request = Decoded body ->
  is_valid body = inl validated ->
  serve (student_list request) t
  = (Response 200 (Json (JObj [("msg", JStr "Data inserted Successfully")])),
     Table (<[next_id t := validated]> (rows t)) (next_id t + 1)).
Proof.
  intros Hm Hbody Hvalid. unfold serve, student_list. rewrite Hm.
  unfold bind, lift. rewrite Hbody. simpl. rewrite Hvalid. reflexivity.
Qed.

End Learn1Facts.

(** The PUT of [EmployeesWork] that goes through. *)
Lemma work_put_updates request t members id n r validated :
  LearnUpdate.method request = PUT ->
  LearnUpdate.parsed_body request = Decoded (JObj members) ->
  dict_get "id" members = Some id ->
  truthy id = true ->
  to_pk id = Ok n ->
  rows t !! n = Some r ->
  LearnUpdate.is_valid true (JObj members) = inl validated ->
  serve (LearnUpdate.EmployeesWork request) t
  = (JsonResponse [("msg", JStr "Data Updated Successfully")] 200,
     Table (<[n := work_updated r validated]> (rows t)) (next_id t)).
Proof.
  intros Hm Hbody Hid Htruthy Hpk Hrow Hvalid.
  unfold serve, LearnUpdate.EmployeesWork, try_except. rewrite Hm.
  unfold LearnUpdate.EmployeesWork_try, bind, lift. rewrite Hbody. simpl. rewrite Hid. simpl.
  rewrite Htruthy. simpl. unfold try_except, bind.
  assert (Hid' : id <> JNull) by (intros ->; discriminate).
  rewrite (objects_get_found "Employees" id t n r Hid' Hpk Hrow). simpl.
  rewrite Hvalid. reflexivity.
Qed.

(** ** Partial updates *)

(** C1.  A partial update - PUT on the manual JSON handler [EmployeesWork],
    which validates with [partial=True], or PATCH on
    [EmployeesManipulation] - changes no stored field that the request
    payload does not supply: for every row [k] and every field [key] absent
    from the payload, the stored value after the request is the stored value
    before it.  Only supplied fields can change. *)
Theorem partial_update_frame :
  (forall (request : LearnUpdate.request) (t : table LearnUpdate.Employees) (k : Z) (key : string),
      LearnUpdate.supplies request key = false ->
      rows (snd (serve (LearnUpdate.EmployeesWork request) t)) !! k ≫= LearnUpdate.attr key
      = rows t !! k ≫= LearnUpdate.attr key)
  /\
  (forall (request : GenericApi.request) (pk : Z) (t : table GenericApi.Employees)
          (k : Z) (key : string),
      GenericApi.method request = PATCH ->
      GenericApi.supplies request key = false ->
      rows (snd (serve (GenericApi.EmployeesManipulation request pk) t)) !! k ≫= GenericApi.attr key
      = rows t !! k ≫= GenericApi.attr key).
Proof.
  split.
  - intros request t k key Hkey.
    destruct (decide (LearnUpdate.method request = PUT)) as [Hm|Hm].
    + pose proof (LearnUpdateFacts.EmployeesWork_put request t Hm) as H.
      destruct (serve (LearnUpdate.EmployeesWork request) t) as [resp t'].
      cbv beta iota in H.
      destruct H as [[-> _]|(members & id & inst & validated & Hbody & _ & _ & _ & Hrow & Hvalid & _ & ->)];
        [reflexivity|].
      simpl. destruct (decide (k = inst_id inst)) as [->|Hk].
      * rewrite lookup_insert_eq, Hrow. simpl.
        unfold LearnUpdate.supplies in Hkey. rewrite Hbody in Hkey.
        apply dict_get_not_supplied in Hkey.
        apply LearnUpdateFacts.work_partial_skips in Hvalid as (Hn & Hp & Hc).
        unfold LearnUpdate.attr.
        destruct (String.eqb_spec key "name") as [->|_]; [rewrite (Hn Hkey); reflexivity|].
        destruct (String.eqb_spec key "phone") as [->|_]; [rewrite (Hp Hkey); reflexivity|].
        destruct (String.eqb_spec key "city") as [->|_]; [rewrite (Hc Hkey); reflexivity|].
        reflexivity.
      * rewrite lookup_insert_ne by congruence. reflexivity.
    + unfold serve, LearnUpdate.EmployeesWork.
      destruct (LearnUpdate.method request); try reflexivity. congruence.
  - intros request pk t k key Hm Hkey.
    unfold GenericApi.EmployeesManipulation. rewrite Hm. unfold GenericApi.partial_update.
    pose proof (GenericApiFacts.update_outcomes true request pk t) as H.
    destruct (serve _ t) as [resp t'].
    cbv beta iota in H.
    destruct H as [[-> _]|(members & r & validated & Hdata & Hrow & Hvalid & _ & ->)];
      [reflexivity|].
    simpl. destruct (decide (k = pk)) as [->|Hk].
    + rewrite lookup_insert_eq, Hrow. simpl.
      unfold GenericApi.supplies in Hkey. rewrite Hdata in Hkey.
      apply dict_get_not_supplied in Hkey.
      apply GenericApiFacts.generic_partial_skips in Hvalid as (Hn & Ha & Hs).
      unfold GenericApi.attr, GenericApi.updated; simpl.
      destruct (String.eqb_spec key "name") as [->|_]; [rewrite (Hn Hkey); reflexivity|].
      destruct (String.eqb_spec key "age") as [->|_]; [rewrite (Ha Hkey); reflexivity|].
      destruct (String.eqb_spec key "salary") as [->|_]; [rewrite (Hs Hkey); reflexivity|].
      reflexivity.
    + rewrite lookup_insert_ne by congruence. reflexivity.
Qed.

Lemma partial_update_frame_witness :
  LearnUpdate.supplies Samples.put_city "name" = false
  /\ rows (snd (serve (LearnUpdate.EmployeesWork Samples.put_city) Samples.office)) !! 3
       ≫= LearnUpdate.attr "name"
     = Some (JStr "Ann")
  /\ GenericApi.supplies Samples.patch_salary "age" = false
  /\ rows (snd (serve (GenericApi.EmployeesManipulation Samples.patch_salary 1)
                  Samples.staff_with_ann)) !! 1 ≫= GenericApi.attr "age"
     = Some (JNum 30).
Proof.
  split; [reflexivity|]. split.
  - rewrite (proj1 partial_update_frame Samples.put_city Samples.office 3 "name" eq_refl).
    reflexivity.
  - split; [reflexivity|].
    rewrite (proj2 partial_update_frame Samples.patch_salary 1 Samples.staff_with_ann 1 "age"
               eq_refl eq_refl).
    reflexivity.
Defined.

(** ** The manual JSON update handler *)




(** ** Requests that name no stored record *)




(** ** Creating records *)

(** The sibling handlers do answer a payload that lacks a required field
    with status 400 and the field errors, and store nothing. *)
Lemma notesApi_post_missing_title request path_id t members :
  FunctionBased.method request = POST ->
  FunctionBased.data request = Decoded (JObj members) ->
  dict_get "title" members = None ->
  exists errors,
    dict_get "title" errors = Some (JArr [JStr "This field is required."])
    /\ serve (FunctionBased.notesApi request path_id) t
       = (Response 400 (Json (JObj [("error", JObj errors);
                                    ("msg", JStr "Data insertion unsuccessfull")])), t).
Proof.
  intros Hm Hdata Htitle.
  destruct (FunctionBased.is_valid (JObj members)) as [validated|errors] eqn:Hvalid.
  - exfalso. revert Hvalid. unfold FunctionBased.is_valid. rewrite Htitle. simpl.
    destruct (run_validation _ _ _ _); discriminate.
  - exists errors. split.
    + revert Hvalid. unfold FunctionBased.is_valid. rewrite Htitle. simpl.
      destruct (run_validation _ _ _ _); intros [= <-]; reflexivity.
    + eapply FunctionBasedFacts.notes_post_invalid; eassumption.
Qed.

Lemma EmployeesList_post_missing_name request t members :
  GenericApi.method request = POST ->
  GenericApi.data request = Decoded (JObj members) ->
  dict_get "name" members = None ->
  exists errors,
    dict_get "name" errors = Some (JArr [JStr "This field is required."])
    /\ serve (GenericApi.EmployeesList request) t = (Response 400 (Json (JObj errors)), t).
Proof.
  intros Hm Hdata Hname.
  destruct (GenericApi.is_valid false (JObj members)) as [validated|errors] eqn:Hvalid.
  - exfalso. revert Hvalid. unfold GenericApi.is_valid. rewrite Hname. simpl. discriminate.
  - exists errors. split.
    + revert Hvalid. unfold GenericApi.is_valid. rewrite Hname. simpl.
      intros [= <-]; reflexivity.
    + eapply GenericApiFacts.create_invalid; eassumption.
Qed.

(** C4.  [student_list] does not do what the claim says: the POST of a
    student without the required name is answered with the field errors but
    with status 200, the default of [HttpResponse], where the claim (and the
    sibling handlers above) answer 400.  No record is created. *)
Theorem student_list_missing_name_status_200 :
  serve (Learn1.student_list Samples.post_student_without_name) Samples.no_students
  = (Response 200 (Json (JObj [("name", JArr [JStr "This field is required."])])),
     Samples.no_students)
  /\ status (fst (serve (Learn1.student_list Samples.post_student_without_name)
                    Samples.no_students)) <> 400.
Proof. split; [reflexivity|discriminate]. Qed.

(** C5, as stated, fails on [notesApi]: a valid note is stored under the
    next key, but the response body is the confirmation message alone; it is
    not the DTO of the new note and carries no id. *)
Lemma notesApi_post_answers_message_only :
  let new_note := {| FunctionBased.title := "Call Bob"; FunctionBased.completed := false;
                     FunctionBased.created_at := 200 |} in
  let outcome := serve (FunctionBased.notesApi Samples.post_note None) Samples.notebook in
  rows (snd outcome) !! 2 = Some new_note
  /\ fst outcome = Response 200 (Json (JObj [("msg", JStr "Data is inserted successfully")]))
  /\ body (fst outcome) <> Json (FunctionBased.to_representation (Instance 2 new_note))
  /\ (forall members, body (fst outcome) = Json (JObj members) -> dict_get "id" members = None).
Proof.
  repeat split.
  - discriminate.
  - intros members [= <-]. reflexivity.
Qed.

(** C5, amended.  A successful POST stores the record under the key the
    store assigns.  [EmployeesList.post] answers 201 with the DTO of the
    created record, the assigned id included; [notesApi] and [student_list]
    answer 200 with a confirmation message only. *)
Theorem create_response :
  (forall (request : GenericApi.request) (t : table GenericApi.Employees) members validated,
      GenericApi.method request = POST ->
      GenericApi.data request = Decoded (JObj members) ->
      GenericApi.is_valid false (JObj members) = inl validated ->
      exists name age,
        GenericApi.v_name validated = Some name /\ GenericApi.v_age validated = Some age /\
        let salary := default 10000 (GenericApi.v_salary validated) in
        serve (GenericApi.EmployeesList request) t
        = (Response 201 (Json (JObj [("id", JNum (next_id t)); ("name", JStr name);
                                     ("age", JNum age); ("salary", JNum salary)])),
           Table (<[next_id t := {| GenericApi.name := name; GenericApi.age := age;
                                    GenericApi.salary := salary |}]> (rows t))
                 (next_id t + 1)))
  /\
  (forall (request : FunctionBased.request) (path_id : option Z) (t : table FunctionBased.Notes)
          body validated,
      FunctionBased.method request = POST ->
      FunctionBased.data request = Decoded body ->
      FunctionBased.is_valid body = inl validated ->
      serve (FunctionBased.notesApi request path_id) t
      = (Response 200 (Json (JObj [("msg", JStr "Data is inserted successfully")])),
         Table (<[next_id t := {| FunctionBased.title := FunctionBased.v_title validated;
                                  FunctionBased.completed := FunctionBased.v_completed validated;
                                  FunctionBased.created_at := FunctionBased.now request |}]>
                  (rows t))
               (next_id t + 1)))
  /\
  (forall (request : Learn1.request) (t : table Learn1.Student) body validated,
      Learn1.method request = POST ->
      Learn1.parsed_body request = Decoded body ->
      Learn1.is_valid body = inl validated ->
      serve (Learn1.student_list request) t
      = (Response 200 (Json (JObj [("msg", JStr "Data inserted Successfully")])),
         Table (<[next_id t := validated]> (rows t)) (next_id t + 1))).
Proof.
  repeat split.
  - intros request t members validated Hm Hdata Hvalid.
    destruct (GenericApiFacts.create_valid request t members validated Hm Hdata Hvalid)
      as (n & a & Hn & Ha & Hserve).
    exists n, a. split; [exact Hn|]. split; [exact Ha|]. exact Hserve.
  - intros request path_id t body validated Hm Hdata Hvalid.
    eapply FunctionBasedFacts.notes_post_valid; eassumption.
  - intros request t body validated Hm Hbody Hvalid.
    eapply Learn1Facts.student_post_valid; eassumption.
Qed.

Lemma create_response_witness :
  serve (GenericApi.EmployeesList Samples.post_ann) Samples.staff
  = (Response 201 (Json (JObj [("id", JNum 1); ("name", JStr "Ann"); ("age", JNum 30);
                               ("salary", JNum 50000)])),
     Samples.staff_with_ann)
  /\ fst (serve (FunctionBased.notesApi Samples.post_note None) Samples.notebook)
     = Response 200 (Json (JObj [("msg", JStr "Data is inserted successfully")])).
Proof.
  destruct create_response as (Hgeneric & Hnotes & _).
  split.
  - destruct (Hgeneric Samples.post_ann Samples.staff
                [("name", JStr "Ann"); ("age", JNum 30); ("salary", JNum 50000)]
                {| GenericApi.v_name := Some "Ann"; GenericApi.v_age := Some 30;
                   GenericApi.v_salary := Some 50000 |}
                eq_refl eq_refl eq_refl) as (name & age & [= <-] & [= <-] & Hserve).
    exact Hserve.
  - rewrite (Hnotes Samples.post_note None Samples.notebook
               (JObj [("title", JStr "Call Bob"); ("completed", JBool false)])
               {| FunctionBased.v_title := "Call Bob"; FunctionBased.v_completed := false |}
               eq_refl eq_refl eq_refl).
    reflexivity.
Defined.

(** ** Which id the function-based dispatcher uses *)

(** C6.  [notesApi] does not do what the claim says on PUT: the id is read
    from the request body, and neither the path segment nor the query
    parameter is consulted.  PUT on [notes/1/] without an id in the body is
    answered 400 "ID is required" although note 1 is stored and named by the
    path - and with [?id=1] in the query string as well; with an id in the
    body, that id wins over the path. *)
Theorem notesApi_put_ignores_path_and_query :
  rows Samples.notebook !! 1 <> None
  /\ serve (FunctionBased.notesApi Samples.put_note_without_id (Some 1)) Samples.notebook
     = (Response 400 (Json (JObj [("msg", JStr "ID is required for update operation")])),
        Samples.notebook)
  /\ serve (FunctionBased.notesApi
              (Samples.notes_request PUT [("id", "1")]
                 (JObj [("title", JStr "Buy bread"); ("completed", JBool true)]))
              (Some 1)) Samples.notebook
     = (Response 400 (Json (JObj [("msg", JStr "ID is required for update operation")])),
        Samples.notebook)
  /\ serve (FunctionBased.notesApi
              (Samples.notes_request PUT []
                 (JObj [("id", JNum 9); ("title", JStr "Buy bread"); ("completed", JBool true)]))
              (Some 1)) Samples.notebook
     = (Response 404 (Json (JObj [("msg", JStr "Note not found")])), Samples.notebook).
Proof. repeat split. discriminate. Qed.



(** ** Create, then retrieve *)




(** ** Delete, then retrieve *)




(** ** The falsy-id check of the manual JSON handler *)




(** ** The scenario of the specification *)

(** POST Ann, PATCH her salary, GET her, DELETE her, GET her again. *)
Example specification_scenario :
  let t0 := Samples.staff in
  let '(created, t1) := serve (GenericApi.EmployeesList Samples.post_ann) t0 in
  let '(patched, t2) := serve (GenericApi.EmployeesManipulation Samples.patch_salary 1) t1 in
  let '(shown, t3) := serve (GenericApi.EmployeesManipulation Samples.get_employee 1) t2 in
  let '(deleted, t4) := serve (GenericApi.EmployeesManipulation Samples.delete_employee 1) t3 in
  let '(missing, _) := serve (GenericApi.EmployeesManipulation Samples.get_employee 1) t4 in
  status created = 201
  /\ status patched = 200
  /\ shown = Response 200 (Json (JObj [("id", JNum 1); ("name", JStr "Ann"); ("age", JNum 30);
                                       ("salary", JNum 70000)]))
  /\ deleted = Response 204 NoContent
  /\ status missing = 404.
Proof. vm_compute. repeat split. Qed.

(** * Further properties of the handlers *)

(** ** deserializer/learnUpdate: [EmployeesWork] and [EmployeesSerializer.update] *)

(** Every outcome of [EmployeesWork]: the store is left as it was and the
    status is not 200, or the PUT named a stored row, validated, and
    rewrote that row. *)
Lemma work_outcomes request t :
  (snd (serve (LearnUpdate.EmployeesWork request) t) = t
   /\ status (fst (serve (LearnUpdate.EmployeesWork request) t)) <> 200)
  \/
  (exists members id n r validated,
      LearnUpdate.method request = PUT /\
      LearnUpdate.parsed_body request = Decoded (JObj members) /\
      dict_get "id" members = Some id /\ truthy id = true /\ to_pk id = Ok n /\
      rows t !! n = Some r /\
      LearnUpdate.is_valid true (JObj members) = inl validated /\
      serve (LearnUpdate.EmployeesWork request) t
      = (JsonResponse [("msg", JStr "Data Updated Successfully")] 200,
         Table (<[n := work_updated r validated]> (rows t)) (next_id t))).
Proof.
  destruct (decide (LearnUpdate.method request = PUT)) as [Hm|Hm].
  - pose proof (LearnUpdateFacts.EmployeesWork_put request t Hm) as H.
    destruct (serve (LearnUpdate.EmployeesWork request) t) as [resp t'] eqn:Hserve.
    cbv beta iota in H.
    destruct H as [[-> Hst]|(members & id & [n r] & validated & Hbody & Hid & Htruthy
                             & Hpk & Hrow & Hvalid & _ & _)].
    + left. split; [reflexivity|exact Hst].
    + right. simpl in Hpk, Hrow, Hid. injection Hid as Hid.
      assert (Hid' : dict_get "id" members = Some id).
      { destruct (dict_get "id" members); simpl in Hid; [congruence|].
        subst id. discriminate. }
      exists members, id, n, r, validated. repeat split; try assumption.
      rewrite <- Hserve. apply (work_put_updates request t members id n r validated);
        assumption.
  - left. unfold serve, LearnUpdate.EmployeesWork.
    destruct (LearnUpdate.method request); try congruence; split; try reflexivity; discriminate.
Qed.

(** X1.  [EmployeesWork] never creates and never deletes a record: whatever
    the request, the stored keys and the key counter are the same after it
    as before. *)
Theorem EmployeesWork_keeps_keys :
  forall (request : LearnUpdate.request) (t : table LearnUpdate.Employees),
    next_id (snd (serve (LearnUpdate.EmployeesWork request) t)) = next_id t
    /\ forall k, is_Some (rows (snd (serve (LearnUpdate.EmployeesWork request) t)) !! k)
                 <-> is_Some (rows t !! k).
Proof.
  intros request t.
  destruct (work_outcomes request t)
    as [[-> _]|(members & id & n & r & validated & _ & _ & _ & _ & _ & Hrow & _ & ->)].
  - split; [reflexivity|]. intros k. reflexivity.
  - simpl. split; [reflexivity|]. intros k.
    destruct (decide (k = n)) as [->|Hk].
    + rewrite lookup_insert_eq, Hrow. split; eauto.
    + rewrite lookup_insert_ne by congruence. reflexivity.
Qed.

(** X2.  [EmployeesWork] changes one record at most, the one the body
    names.  A row that differs after the call belongs to a PUT answered 200
    whose body is an object with a truthy 'id'; no two rows differ; and when
    that id reads as the integer n, every row but row n is as it was. *)
Theorem EmployeesWork_touches_addressed_row :
  forall (request : LearnUpdate.request) (t : table LearnUpdate.Employees),
    let t' := snd (serve (LearnUpdate.EmployeesWork request) t) in
    (forall k,
        rows t' !! k <> rows t !! k ->
        LearnUpdate.method request = PUT
        /\ status (fst (serve (LearnUpdate.EmployeesWork request) t)) = 200
        /\ exists members id,
             LearnUpdate.parsed_body request = Decoded (JObj members)
             /\ dict_get "id" members = Some id
             /\ truthy id = true)
    /\
    (forall k1 k2,
        rows t' !! k1 <> rows t !! k1 -> rows t' !! k2 <> rows t !! k2 -> k1 = k2)
    /\
    (forall members id n k,
        LearnUpdate.parsed_body request = Decoded (JObj members) ->
        dict_get "id" members = Some id ->
        to_pk id = Ok n ->
        k <> n ->
        rows t' !! k = rows t !! k).
Proof.
  intros request t. cbv zeta.
  destruct (work_outcomes request t)
    as [[H _]|(members & id & n & r & validated & Hm & Hbody & Hid & Htruthy & Hpk & Hrow
               & Hvalid & Hserve)].
  - rewrite H. split; [|split].
    + intros k Hchanged. contradiction.
    + intros k1 k2 Hchanged. contradiction.
    + reflexivity.
  - rewrite Hserve. simpl. split; [|split].
    + intros k Hchanged. split; [assumption|]. split; [reflexivity|]. eauto.
    + intros k1 k2 H1 H2.
      destruct (decide (n = k1)) as [<-|Hk1];
        [|rewrite lookup_insert_ne in H1 by assumption; contradiction].
      destruct (decide (n = k2)) as [<-|Hk2];
        [reflexivity|rewrite lookup_insert_ne in H2 by assumption; contradiction].
    + intros members' id' n' k Hbody' Hid' Hpk' Hk.
      assert (n' = n) as -> by congruence.
      rewrite lookup_insert_ne by congruence. reflexivity.
Qed.

Lemma EmployeesWork_touches_addressed_row_witness :
  rows (snd (serve (LearnUpdate.EmployeesWork Samples.put_city) Samples.office)) !! 0
  = Some {| LearnUpdate.name := "Zed"; LearnUpdate.phone := "000"; LearnUpdate.city := "Oslo" |}
  /\ rows (snd (serve (LearnUpdate.EmployeesWork Samples.put_city) Samples.office)) !! 3
     <> rows Samples.office !! 3.
Proof.
  destruct (EmployeesWork_touches_addressed_row Samples.put_city Samples.office)
    as (_ & _ & Hothers).
  split.
  - rewrite (Hothers [("id", JNum 3); ("city", JStr "Rome")] (JNum 3) 3 0
               eq_refl eq_refl eq_refl); [reflexivity|discriminate].
  - vm_compute. discriminate.
Defined.

Lemma work_updated_twice r validated :
  work_updated (work_updated r validated) validated = work_updated r validated.
Proof.
  destruct validated as [[n|] [p|] [c|]]; reflexivity.
Qed.

(** X3.  The PUT of [EmployeesWork] is idempotent: serving a request a
    second time gives the response and the store the first time gave. *)
Theorem EmployeesWork_idempotent :
  forall (request : LearnUpdate.request) (t : table LearnUpdate.Employees),
    serve (LearnUpdate.EmployeesWork request) (snd (serve (LearnUpdate.EmployeesWork request) t))
    = serve (LearnUpdate.EmployeesWork request) t.
Proof.
  intros request t.
  destruct (work_outcomes request t)
    as [[-> _]|(members & id & n & r & validated & Hm & Hbody & Hid & Htruthy & Hpk & Hrow
                & Hvalid & Hserve)]; [reflexivity|].
  rewrite Hserve. simpl snd.
  rewrite (work_put_updates request _ members id n (work_updated r validated) validated
             Hm Hbody Hid Htruthy Hpk (lookup_insert_eq _ _ _) Hvalid).
  simpl. rewrite work_updated_twice, insert_insert_eq. reflexivity.
Qed.




(** X5.  [EmployeesWork] always returns a response of its own - no
    exception leaves the view - and its status is 200, 400, 404 or 500 for
    a PUT and 405 for every other verb. *)
Theorem EmployeesWork_status_codes :
  forall (request : LearnUpdate.request) (t : table LearnUpdate.Employees),
    exists resp t',
      LearnUpdate.EmployeesWork request t = (Ok resp, t')
      /\ match LearnUpdate.method request with
         | PUT => status resp = 200 \/ status resp = 400 \/ status resp = 404
                  \/ status resp = 500
         | _ => status resp = 405
         end.
Proof.
  intros request t.
  unfold LearnUpdate.EmployeesWork, try_except.
  destruct (LearnUpdate.method request); try (eexists; eexists; split; reflexivity).
  unfold LearnUpdate.EmployeesWork_try, bind, lift.
  destruct (LearnUpdate.parsed_body request) as [updateData|detail]; simpl;
    [|eexists; eexists; split; [reflexivity|simpl; auto]].
  destruct (py_get updateData "id") as [id|e]; simpl;
    [|eexists; eexists; split; [reflexivity|simpl; auto]].
  destruct (truthy id); simpl; [|eexists; eexists; split; [reflexivity|simpl; auto]].
  unfold try_except, bind.
  destruct (objects_get "Employees" id t) as [[inst|e] t1]; simpl.
  - destruct (LearnUpdate.is_valid true updateData); simpl;
      eexists; eexists; (split; [reflexivity|simpl; auto]).
  - destruct (is_DoesNotExist e); simpl;
      eexists; eexists; (split; [reflexivity|simpl; auto]).
Qed.

(** ** deserializer/learn1: [student_list] *)

Lemma empty_table_wf {R} (n : Z) : wf (Table (∅ : gmap Z R) n).
Proof. intros k. simpl. rewrite lookup_empty. intros [? [=]]. Qed.

(** X6.  [student_list] only ever appends.  In a store whose keys lie below
    its counter, a request leaves every stored student as it was, and it
    either changes nothing or - for a POST whose body decodes and validates -
    stores that one student under the next key and advances the counter by
    one. *)
Theorem student_list_only_appends :
  forall (req : Learn1.request) (t : table Learn1.Student),
    wf t ->
    let t' := snd (serve (Learn1.student_list req) t) in
    wf t'
    /\ (forall k, is_Some (rows t !! k) -> rows t' !! k = rows t !! k)
    /\ (t' = t
        \/ (Learn1.method req = POST
            /\ exists body student,
                 Learn1.parsed_body req = Decoded body
                 /\ Learn1.is_valid body = inl student
                 /\ rows t' !! next_id t = Some student
                 /\ next_id t' = next_id t + 1)).
Proof.
  intros req t Hwf. cbv zeta.
  assert (Hcases :
            snd (serve (Learn1.student_list req) t) = t
            \/ (Learn1.method req = POST
                /\ exists body student,
                     Learn1.parsed_body req = Decoded body
                     /\ Learn1.is_valid body = inl student
                     /\ snd (serve (Learn1.student_list req) t)
                        = Table (<[next_id t := student]> (rows t)) (next_id t + 1))).
  { rewrite serve_snd. unfold Learn1.student_list.
    destruct (Learn1.method req) eqn:Hm; try (left; reflexivity).
    unfold bind, lift.
    destruct (Learn1.parsed_body req) as [body|detail] eqn:Hbody; simpl; [|left; reflexivity].
    destruct (Learn1.is_valid body) as [student|errors] eqn:Hvalid; simpl; [|left; reflexivity].
    right. split; [reflexivity|]. exists body, student. auto. }
  destruct Hcases as [->|(Hm & body & student & Hbody & Hvalid & ->)].
  - split; [assumption|]. split; [reflexivity|]. left. reflexivity.
  - split; [eapply effect_wf; [apply effect_create|assumption]|]. split.
    + intros k Hk. simpl. apply Hwf in Hk. rewrite lookup_insert_ne by lia. reflexivity.
    + right. split; [assumption|]. exists body, student. simpl.
      rewrite lookup_insert_eq. auto.
Qed.

Lemma student_list_only_appends_witness :
  let t' := snd (serve (Learn1.student_list Samples.post_student) Samples.classroom) in
  rows t' !! 1 = Some Samples.amy
  /\ rows t' !! 2 = Some Samples.john_doe
  /\ next_id t' = 3.
Proof.
  destruct (student_list_only_appends Samples.post_student Samples.classroom
              (singleton_table_wf 1 Samples.amy))
    as (_ & Hkept & [Hsame|(_ & body & student & Hbody & Hvalid & Hnew & Hnext)]).
  - exfalso. revert Hsame. vm_compute. discriminate.
  - cbv zeta. split; [|split].
    + rewrite (Hkept 1); [reflexivity|]. vm_compute. eauto.
    + injection Hbody as <-. injection Hvalid as <-. exact Hnew.
    + exact Hnext.
Defined.

(** ** [Model.objects.all()] *)

Section ObjectsAll.
Context {R : Type}.
Implicit Types (t : table R).

Lemma objects_all_keys t :
  map inst_id (objects_all t) ≡ₚ map fst (map_to_list (rows t)).
Proof.
  unfold objects_all. rewrite map_map. simpl.
  apply Permutation_map. apply merge_sort_Permutation.
Qed.

Lemma NoDup_objects_all t : NoDup (map inst_id (objects_all t)).
Proof.
  rewrite objects_all_keys. apply NoDup_fst_map_to_list.
Qed.

Lemma elem_of_objects_all t k r :
  Instance k r ∈ objects_all t <-> rows t !! k = Some r.
Proof.
  unfold objects_all. rewrite list_elem_of_fmap. split.
  - intros ([k' r'] & [= -> ->] & Hin).
    rewrite merge_sort_Permutation in Hin. apply elem_of_map_to_list in Hin. exact Hin.
  - intros Hrow. exists (k, r). split; [reflexivity|].
    rewrite merge_sort_Permutation. apply elem_of_map_to_list. exact Hrow.
Qed.

Lemma length_objects_all t : length (objects_all t) = size (rows t).
Proof.
  unfold objects_all. rewrite length_map, merge_sort_Permutation.
  apply length_map_to_list.
Qed.

End ObjectsAll.

(** ** Reading: GET *)

Lemma notes_get_state request id t :
  snd (FunctionBased.notes_get request id t) = t.
Proof.
  unfold FunctionBased.notes_get, try_except, bind.
  destruct (FunctionBased.query_or_path_id request id) eqn:Hpk; simpl; try reflexivity;
    match goal with
    | |- context [objects_get ?m ?v t] =>
        destruct (objects_get m v t) as [[note|e] t1] eqn:Hget;
        [apply objects_get_ok in Hget as (-> & _ & _)
        |apply objects_get_raise in Hget as ->; destruct (is_DoesNotExist e)]
    end; reflexivity.
Qed.

(** X7.  GET is read-only in the function-based and the generic views:
    whatever the query string, the path and the stored rows - and also when
    the lookup raises - the store after the request is the store before. *)
Theorem get_is_read_only :
  (forall (request : FunctionBased.request) (path_id : option Z) (t : table FunctionBased.Notes),
      FunctionBased.method request = GET ->
      snd (serve (FunctionBased.notesApi request path_id) t) = t)
  /\
  (forall (request : GenericApi.request) (t : table GenericApi.Employees),
      GenericApi.method request = GET ->
      snd (serve (GenericApi.EmployeesList request) t) = t)
  /\
  (forall (request : GenericApi.request) (pk : Z) (t : table GenericApi.Employees),
      GenericApi.method request = GET ->
      snd (serve (GenericApi.EmployeesManipulation request pk) t) = t).
Proof.
  split; [|split].
  - intros request path_id t Hm. rewrite serve_snd. unfold FunctionBased.notesApi.
    rewrite Hm, handle_exception_snd. apply notes_get_state.
  - intros request t Hm. rewrite serve_snd. unfold GenericApi.EmployeesList.
    rewrite Hm, handle_exception_snd. reflexivity.
  - intros request pk t Hm. rewrite serve_snd. unfold GenericApi.EmployeesManipulation.
    rewrite Hm, handle_exception_snd. unfold GenericApi.retrieve, bind.
    destruct (rows t !! pk) as [r|] eqn:Hrow.
    + rewrite (GenericApiFacts.get_object_found _ _ _ Hrow). reflexivity.
    + rewrite (GenericApiFacts.get_object_missing _ _ Hrow). reflexivity.
Qed.

Lemma get_is_read_only_witness :
  snd (serve (FunctionBased.notesApi
                (Samples.notes_request GET [("id", "abc")] JNull) (Some 1)) Samples.notebook)
  = Samples.notebook
  /\ snd (serve (GenericApi.EmployeesManipulation Samples.get_employee 7) Samples.staff_with_ann)
     = Samples.staff_with_ann.
Proof.
  destruct get_is_read_only as (Hnotes & _ & Hitem).
  split.
  - exact (Hnotes (Samples.notes_request GET [("id", "abc")] JNull) (Some 1) Samples.notebook
             eq_refl).
  - exact (Hitem Samples.get_employee 7 Samples.staff_with_ann eq_refl).
Defined.

(** X8.  GET on [notes/] without an id answers 200 with every stored note
    and nothing else: the listed DTOs are those of the stored rows, each key
    once, as many as the table holds. *)
Theorem notesApi_lists_every_note :
  forall (request : FunctionBased.request) (t : table FunctionBased.Notes),
    FunctionBased.method request = GET ->
    dict_get "id" (FunctionBased.query_params request) = None ->
    exists notes,
      serve (FunctionBased.notesApi request None) t
      = (Response 200 (Json (JObj [("data", JArr (map FunctionBased.to_representation notes));
                                   ("msg", JStr "All notes retrieved")])), t)
      /\ NoDup (map inst_id notes)
      /\ length notes = size (rows t)
      /\ forall k note, Instance k note ∈ notes <-> rows t !! k = Some note.
Proof.
  intros request t Hm Hquery. exists (objects_all t). split; [|split; [|split]].
  - unfold serve, FunctionBased.notesApi. rewrite Hm.
    unfold handle_exception, FunctionBased.notes_get, FunctionBased.query_or_path_id.
    rewrite Hquery. reflexivity.
  - apply NoDup_objects_all.
  - apply length_objects_all.
  - intros k note. apply elem_of_objects_all.
Qed.

Lemma notesApi_lists_every_note_witness :
  exists notes,
    serve (FunctionBased.notesApi Samples.get_note None) Samples.notebook
    = (Response 200 (Json (JObj [("data", JArr (map FunctionBased.to_representation notes));
                                 ("msg", JStr "All notes retrieved")])), Samples.notebook)
    /\ length notes = 1%nat.
Proof.
  destruct (notesApi_lists_every_note Samples.get_note Samples.notebook eq_refl eq_refl)
    as (notes & Hserve & _ & Hlength & _).
  exists notes. split; [exact Hserve|]. rewrite Hlength. reflexivity.
Defined.

(** X9.  GET on [EmployeesList] answers 200 with the DTO of every stored
    employee and nothing else, each key once. *)
Theorem EmployeesList_lists_every_employee :
  forall (request : GenericApi.request) (t : table GenericApi.Employees),
    GenericApi.method request = GET ->
    exists employees,
      serve (GenericApi.EmployeesList request) t
      = (Response 200 (Json (JArr (map GenericApi.to_representation employees))), t)
      /\ NoDup (map inst_id employees)
      /\ length employees = size (rows t)
      /\ forall k e, Instance k e ∈ employees <-> rows t !! k = Some e.
Proof.
  intros request t Hm. exists (objects_all t). split; [|split; [|split]].
  - unfold serve, GenericApi.EmployeesList. rewrite Hm. reflexivity.
  - apply NoDup_objects_all.
  - apply length_objects_all.
  - intros k e. apply elem_of_objects_all.
Qed.

Lemma EmployeesList_lists_every_employee_witness :
  exists employees,
    serve (GenericApi.EmployeesList Samples.get_employee) Samples.staff_with_ann
    = (Response 200 (Json (JArr (map GenericApi.to_representation employees))),
       Samples.staff_with_ann)
    /\ Instance 1 Samples.ann ∈ employees.
Proof.
  destruct (EmployeesList_lists_every_employee Samples.get_employee Samples.staff_with_ann eq_refl)
    as (employees & Hserve & _ & _ & Hin).
  exists employees. split; [exact Hserve|]. apply Hin. reflexivity.
Defined.

(** ** Writing through [notesApi] *)

Lemma notes_put_updates request path_id t members pk n old validated :
  FunctionBased.method request = PUT ->
  FunctionBased.data request = Decoded (JObj members) ->
  dict_get "id" members = Some pk ->
  to_pk pk = Ok n ->
  rows t !! n = Some old ->
  FunctionBased.is_valid (JObj members) = inl validated ->
  serve (FunctionBased.notesApi request path_id) t
  = (Response 202 (Json (JObj [("msg", JStr "Note updated succesfully")])),
     Table (<[n := note_updated old validated]> (rows t)) (next_id t)).
Proof.
  intros Hm Hdata Hid Hpk Hrow Hvalid. unfold serve, FunctionBased.notesApi. rewrite Hm.
  unfold handle_exception, FunctionBased.notes_put, try_except, bind, lift.
  rewrite Hdata. simpl. rewrite Hid. simpl.
  pose proof (objects_get_found "Notes" pk t n old
                (FunctionBasedFacts.to_pk_not_None _ _ Hpk) Hpk Hrow) as Hget.
  destruct pk; try discriminate; rewrite Hget; simpl; rewrite Hvalid; reflexivity.
Qed.

(** Every outcome of one call, by what it does to the table. *)
Lemma notesApi_outcomes request path_id t :
  (snd (serve (FunctionBased.notesApi request path_id) t) = t)
  \/
  (exists body validated,
      FunctionBased.method request = POST
      /\ FunctionBased.data request = Decoded body
      /\ FunctionBased.is_valid body = inl validated
      /\ serve (FunctionBased.notesApi request path_id) t
         = (Response 200 (Json (JObj [("msg", JStr "Data is inserted successfully")])),
            Table (<[next_id t := {| FunctionBased.title := FunctionBased.v_title validated;
                                     FunctionBased.completed := FunctionBased.v_completed validated;
                                     FunctionBased.created_at := FunctionBased.now request |}]>
                     (rows t))
                  (next_id t + 1)))
  \/
  (exists members pk n old validated,
      FunctionBased.method request = PUT
      /\ FunctionBased.data request = Decoded (JObj members)
      /\ dict_get "id" members = Some pk
      /\ to_pk pk = Ok n
      /\ rows t !! n = Some old
      /\ FunctionBased.is_valid (JObj members) = inl validated
      /\ serve (FunctionBased.notesApi request path_id) t
         = (Response 202 (Json (JObj [("msg", JStr "Note updated succesfully")])),
            Table (<[n := note_updated old validated]> (rows t)) (next_id t)))
  \/
  (exists n old,
      FunctionBased.method request = DELETE
      /\ to_pk (FunctionBased.query_or_path_id request path_id) = Ok n
      /\ rows t !! n = Some old
      /\ serve (FunctionBased.notesApi request path_id) t
         = (Response 204 (Json (JObj [("msg", JStr "Note deleted successfully")])),
            Table (delete n (rows t)) (next_id t))).
Proof.
  destruct (FunctionBased.method request) eqn:Hm.
  - left. rewrite serve_snd. unfold FunctionBased.notesApi.
    rewrite Hm, handle_exception_snd. apply notes_get_state.
  - destruct (FunctionBased.data request) as [body|detail] eqn:Hdata.
    + destruct (FunctionBased.is_valid body) as [validated|errors] eqn:Hvalid.
      * right. left. exists body, validated. repeat split; try assumption.
        eapply FunctionBasedFacts.notes_post_valid; eassumption.
      * left. erewrite FunctionBasedFacts.notes_post_invalid by eassumption. reflexivity.
    + left. unfold serve, FunctionBased.notesApi. rewrite Hm.
      unfold handle_exception, FunctionBased.notes_post, bind, lift. rewrite Hdata. reflexivity.
  - destruct (FunctionBased.data request) as [body|detail] eqn:Hdata.
    2:{ left. unfold serve, FunctionBased.notesApi. rewrite Hm.
        unfold handle_exception, FunctionBased.notes_put, bind, lift. rewrite Hdata.
        reflexivity. }
    destruct body as [|b|z|s|items|members];
      try (left; unfold serve, FunctionBased.notesApi; rewrite Hm;
           unfold handle_exception, FunctionBased.notes_put, bind, lift; rewrite Hdata;
           reflexivity).
    destruct (dict_get "id" members) as [pk|] eqn:Hid.
    2:{ left. erewrite FunctionBasedFacts.put_without_id by eassumption. reflexivity. }
    destruct (to_pk pk) as [n|e] eqn:Hpk.
    2:{ left. rewrite serve_snd. unfold FunctionBased.notesApi.
        rewrite Hm, handle_exception_snd.
        unfold FunctionBased.notes_put, try_except, bind, lift. rewrite Hdata. simpl.
        rewrite Hid. simpl.
        destruct pk; simpl; try reflexivity;
          match goal with
          | |- context [objects_get ?m ?v t] =>
              destruct (objects_get m v t) as [[note|e'] t1] eqn:Hget;
              [apply objects_get_ok in Hget as (_ & _ & Hpk'); congruence
              |apply objects_get_raise in Hget as ->; destruct (is_DoesNotExist e'); reflexivity]
          end. }
    destruct (rows t !! n) as [old|] eqn:Hrow.
    2:{ left. erewrite FunctionBasedFacts.notes_put_missing by eassumption. reflexivity. }
    destruct (FunctionBased.is_valid (JObj members)) as [validated|errors] eqn:Hvalid.
    + right. right. left. exists members, pk, n, old, validated.
      repeat split; try assumption. eapply notes_put_updates; eassumption.
    + left. unfold serve, FunctionBased.notesApi. rewrite Hm.
      unfold handle_exception, FunctionBased.notes_put, try_except, bind, lift.
      rewrite Hdata. simpl. rewrite Hid. simpl.
      pose proof (objects_get_found "Notes" pk t n old
                    (FunctionBasedFacts.to_pk_not_None _ _ Hpk) Hpk Hrow) as Hget.
      destruct pk; try discriminate; rewrite Hget; simpl; rewrite Hvalid; reflexivity.
  - left. unfold serve, FunctionBased.notesApi. rewrite Hm. reflexivity.
  - destruct (to_pk (FunctionBased.query_or_path_id request path_id)) as [n|e] eqn:Hpk.
    + destruct (rows t !! n) as [old|] eqn:Hrow.
      * right. right. right. exists n, old. repeat split; try assumption.
        eapply FunctionBasedFacts.delete_found; eassumption.
      * left. erewrite FunctionBasedFacts.delete_missing by eassumption. reflexivity.
    + left. rewrite serve_snd. unfold FunctionBased.notesApi.
      rewrite Hm, handle_exception_snd.
      unfold FunctionBased.notes_delete, try_except, bind.
      destruct (FunctionBased.query_or_path_id request path_id); simpl; try reflexivity;
        match goal with
        | |- context [objects_get ?m ?v t] =>
            destruct (objects_get m v t) as [[note|e'] t1] eqn:Hget;
            [apply objects_get_ok in Hget as (_ & _ & Hpk'); congruence
            |apply objects_get_raise in Hget as ->; destruct (is_DoesNotExist e'); reflexivity]
        end.
Qed.




(** X11.  [notesApi] writes only when it reports success: if a call changes
    the store, it was a POST answered 200, a PUT answered 202 or a DELETE
    answered 204. *)
Theorem notesApi_writes_only_on_success :
  forall (request : FunctionBased.request) (path_id : option Z) (t : table FunctionBased.Notes),
    snd (serve (FunctionBased.notesApi request path_id) t) <> t ->
    let st := status (fst (serve (FunctionBased.notesApi request path_id) t)) in
    (FunctionBased.method request = POST /\ st = 200)
    \/ (FunctionBased.method request = PUT /\ st = 202)
    \/ (FunctionBased.method request = DELETE /\ st = 204).
Proof.
  intros request path_id t Hchanged. cbv zeta.
  destruct (notesApi_outcomes request path_id t)
    as [H|[(? & ? & Hm & _ & _ & ->)|[(? & ? & ? & ? & ? & Hm & _ & _ & _ & _ & _ & ->)
                                     |(? & ? & Hm & _ & _ & ->)]]];
    [contradiction| | |]; auto.
Qed.

Lemma notesApi_writes_only_on_success_witness :
  status (fst (serve (FunctionBased.notesApi Samples.delete_note (Some 1)) Samples.notebook))
  = 204.
Proof.
  destruct (notesApi_writes_only_on_success Samples.delete_note (Some 1) Samples.notebook)
    as [[Hm _]|[[Hm _]|[_ Hst]]].
  - vm_compute. discriminate.
  - discriminate Hm.
  - discriminate Hm.
  - exact Hst.
Defined.

(** X12.  A call to [notesApi] touches one row at most, the one it
    addresses.  A row that differs after the call is the row under the next
    key for a POST, and for a PUT or a DELETE the call carried an id - in
    the body for PUT, in the query string or the path for DELETE; no two
    rows differ; and when that id reads as the integer n, every row but row
    n is as it was. *)
Theorem notesApi_touches_addressed_row :
  forall (request : FunctionBased.request) (path_id : option Z) (t : table FunctionBased.Notes),
    let t' := snd (serve (FunctionBased.notesApi request path_id) t) in
    (forall k,
        rows t' !! k <> rows t !! k ->
        (FunctionBased.method request = POST /\ k = next_id t)
        \/ (FunctionBased.method request = PUT
            /\ exists members pk,
                 FunctionBased.data request = Decoded (JObj members)
                 /\ dict_get "id" members = Some pk /\ pk <> JNull)
        \/ (FunctionBased.method request = DELETE
            /\ FunctionBased.query_or_path_id request path_id <> JNull))
    /\
    (forall k1 k2,
        rows t' !! k1 <> rows t !! k1 -> rows t' !! k2 <> rows t !! k2 -> k1 = k2)
    /\
    (forall members pk n k,
        FunctionBased.method request = PUT ->
        FunctionBased.data request = Decoded (JObj members) ->
        dict_get "id" members = Some pk ->
        to_pk pk = Ok n ->
        k <> n ->
        rows t' !! k = rows t !! k)
    /\
    (forall n k,
        FunctionBased.method request = DELETE ->
        to_pk (FunctionBased.query_or_path_id request path_id) = Ok n ->
        k <> n ->
        rows t' !! k = rows t !! k).
Proof.
  intros request path_id t. cbv zeta.
  destruct (notesApi_outcomes request path_id t)
    as [H|[(body & v & Hm & _ & _ & Hserve)
          |[(members & pk & n & old & v & Hm & Hdata & Hid & Hpk & _ & _ & Hserve)
           |(n & old & Hm & Hpk & _ & Hserve)]]].
  - rewrite H. split; [|split; [|split]]; try reflexivity; intros; contradiction.
  - rewrite Hserve. simpl. split; [|split; [|split]].
    + intros k Hchanged. left. split; [assumption|].
      destruct (decide (next_id t = k)) as [|Hk]; [congruence|].
      rewrite lookup_insert_ne in Hchanged by assumption. contradiction.
    + intros k1 k2 H1 H2.
      destruct (decide (next_id t = k1)) as [<-|Hk1];
        [|rewrite lookup_insert_ne in H1 by assumption; contradiction].
      destruct (decide (next_id t = k2)) as [<-|Hk2];
        [reflexivity|rewrite lookup_insert_ne in H2 by assumption; contradiction].
    + intros ? ? ? ? Hm'. congruence.
    + intros ? ? Hm'. congruence.
  - rewrite Hserve. simpl. split; [|split; [|split]].
    + intros k Hchanged. right. left. split; [assumption|].
      exists members, pk. split; [assumption|]. split; [assumption|].
      intros ->. discriminate.
    + intros k1 k2 H1 H2.
      destruct (decide (n = k1)) as [<-|Hk1];
        [|rewrite lookup_insert_ne in H1 by assumption; contradiction].
      destruct (decide (n = k2)) as [<-|Hk2];
        [reflexivity|rewrite lookup_insert_ne in H2 by assumption; contradiction].
    + intros members' pk' n' k _ Hdata' Hid' Hpk' Hk.
      assert (n' = n) as -> by congruence.
      rewrite lookup_insert_ne by congruence. reflexivity.
    + intros ? ? Hm'. congruence.
  - rewrite Hserve. simpl. split; [|split; [|split]].
    + intros k Hchanged. right. right. split; [assumption|].
      intros Hnull. rewrite Hnull in Hpk. discriminate.
    + intros k1 k2 H1 H2.
      destruct (decide (n = k1)) as [<-|Hk1];
        [|rewrite lookup_delete_ne in H1 by assumption; contradiction].
      destruct (decide (n = k2)) as [<-|Hk2];
        [reflexivity|rewrite lookup_delete_ne in H2 by assumption; contradiction].
    + intros ? ? ? ? Hm'. congruence.
    + intros n' k _ Hpk' Hk.
      assert (n' = n) as -> by congruence.
      rewrite lookup_delete_ne by congruence. reflexivity.
Qed.

Lemma notesApi_touches_addressed_row_witness :
  rows (snd (serve (FunctionBased.notesApi Samples.delete_note (Some 1)) Samples.two_notes)) !! 2
  = Some Samples.call_bob
  /\ rows (snd (serve (FunctionBased.notesApi Samples.delete_note (Some 1)) Samples.two_notes)) !! 1
     <> rows Samples.two_notes !! 1.
Proof.
  destruct (notesApi_touches_addressed_row Samples.delete_note (Some 1) Samples.two_notes)
    as (_ & _ & _ & Hdelete).
  split.
  - rewrite (Hdelete 1 2 eq_refl eq_refl); [reflexivity|discriminate].
  - vm_compute. discriminate.
Defined.

(** X13.  A note created through POST is retrievable: when a POST is
    answered 200, GET with the key the store assigned (as the path id, no
    query id) answers 200 with a DTO that carries that key and the stamp of
    the creating request. *)
Theorem notesApi_post_then_get :
  forall (post get : FunctionBased.request) (path_id : option Z)
         (t : table FunctionBased.Notes),
    FunctionBased.method post = POST ->
    status (fst (serve (FunctionBased.notesApi post path_id) t)) = 200 ->
    FunctionBased.method get = GET ->
    dict_get "id" (FunctionBased.query_params get) = None ->
    let t1 := snd (serve (FunctionBased.notesApi post path_id) t) in
    exists dto,
      serve (FunctionBased.notesApi get (Some (next_id t))) t1
      = (Response 200 (Json (JObj [("data", JObj dto); ("msg", JStr "Note retrieved")])), t1)
      /\ dict_get "id" dto = Some (JNum (next_id t))
      /\ dict_get "created_at" dto = Some (JNum (FunctionBased.now post)).
Proof.
  intros post get path_id t Hm Hstatus Hget Hquery. cbv zeta.
  destruct (FunctionBased.data post) as [body|detail] eqn:Hdata.
  2:{ revert Hstatus. unfold serve, FunctionBased.notesApi. rewrite Hm.
      unfold handle_exception, FunctionBased.notes_post, bind, lift. rewrite Hdata.
      discriminate. }
  destruct (FunctionBased.is_valid body) as [validated|errors] eqn:Hvalid.
  - rewrite (FunctionBasedFacts.notes_post_valid post path_id t _ validated Hm Hdata Hvalid).
    simpl snd.
    rewrite (FunctionBasedFacts.get_found get (Some (next_id t)) _ (next_id t)
               {| FunctionBased.title := FunctionBased.v_title validated;
                  FunctionBased.completed := FunctionBased.v_completed validated;
                  FunctionBased.created_at := FunctionBased.now post |} Hget).
    + eexists. split; [reflexivity|]. split; reflexivity.
    + unfold FunctionBased.query_or_path_id. rewrite Hquery. reflexivity.
    + apply lookup_insert_eq.
  - rewrite (FunctionBasedFacts.notes_post_invalid post path_id t _ errors Hm Hdata Hvalid)
      in Hstatus.
    discriminate Hstatus.
Qed.

Lemma notesApi_post_then_get_witness :
  exists dto,
    serve (FunctionBased.notesApi Samples.get_note (Some 2))
          (snd (serve (FunctionBased.notesApi Samples.post_note None) Samples.notebook))
    = (Response 200 (Json (JObj [("data", JObj dto); ("msg", JStr "Note retrieved")])),
       snd (serve (FunctionBased.notesApi Samples.post_note None) Samples.notebook))
    /\ dict_get "id" dto = Some (JNum 2)
    /\ dict_get "created_at" dto = Some (JNum 200).
Proof.
  exact (notesApi_post_then_get Samples.post_note Samples.get_note None Samples.notebook
           eq_refl eq_refl eq_refl eq_refl).
Defined.




(** ** When [notesApi] fails with a server error *)







(** ** Keys *)

Lemma serve_all_wf {R C} (handler : C -> M (table R) response) :
  (forall c t, effect t (snd (serve (handler c) t))) ->
  forall calls t, wf t -> wf (serve_all handler calls t).
Proof.
  intros Hstep calls. induction calls as [|c calls IH]; intros t Hwf; simpl.
  - assumption.
  - apply IH. eapply effect_wf; [apply Hstep|assumption].
Qed.

Lemma serve_all_next_id {R C} (handler : C -> M (table R) response) :
  (forall c t, effect t (snd (serve (handler c) t))) ->
  forall calls t, next_id t <= next_id (serve_all handler calls t).
Proof.
  intros Hstep calls. induction calls as [|c calls IH]; intros t; simpl.
  - lia.
  - etransitivity; [|apply IH].
    destruct (Hstep c t); simpl; lia.
Qed.

(** X16.  Both REST apps keep their keys below the key counter, and the
    counter never goes back: starting from a store with that property - the
    empty one, for instance - any sequence of requests to [notes/...]  or to
    [Employees/...] leaves a store with that property and a counter at least
    as large. *)
Theorem requests_keep_keys_below_counter :
  (forall (calls : list FunctionBased.call) (t : table FunctionBased.Notes),
      wf t ->
      wf (serve_all FunctionBased.handle calls t)
      /\ next_id t <= next_id (serve_all FunctionBased.handle calls t))
  /\
  (forall (calls : list GenericApi.call) (t : table GenericApi.Employees),
      wf t ->
      wf (serve_all GenericApi.handle calls t)
      /\ next_id t <= next_id (serve_all GenericApi.handle calls t)).
Proof.
  split.
  - intros calls t Hwf.
    assert (Hstep : forall c t0, effect t0 (snd (serve (FunctionBased.handle c) t0))).
    { intros [r c] t0. destruct r; apply FunctionBasedFacts.notesApi_effect. }
    split; [apply serve_all_wf; assumption|apply serve_all_next_id; assumption].
  - intros calls t Hwf.
    assert (Hstep : forall c t0, effect t0 (snd (serve (GenericApi.handle c) t0))).
    { intros [r c] t0. apply GenericApiFacts.urlpatterns_effect. }
    split; [apply serve_all_wf; assumption|apply serve_all_next_id; assumption].
Qed.

Lemma requests_keep_keys_below_counter_witness :
  wf (serve_all GenericApi.handle
        [(GenericApi.employees_root, Samples.post_ann);
         (GenericApi.employees_item 1, Samples.delete_employee);
         (GenericApi.employees_root, Samples.post_ann)]
        Samples.staff).
Proof.
  exact (proj1 (proj2 requests_keep_keys_below_counter _ Samples.staff (empty_table_wf 1))).
Defined.

(** X17.  A create never overwrites.  In a store whose keys lie below its
    counter, a POST to [EmployeesList] that is answered 201 stores the new
    employee under a key that was free, advances the counter by one, and
    leaves every employee that was stored as it was. *)
Theorem EmployeesList_post_takes_free_key :
  forall (request : GenericApi.request) (t : table GenericApi.Employees),
    wf t ->
    GenericApi.method request = POST ->
    status (fst (serve (GenericApi.EmployeesList request) t)) = 201 ->
    let t' := snd (serve (GenericApi.EmployeesList request) t) in
    rows t !! next_id t = None
    /\ is_Some (rows t' !! next_id t)
    /\ next_id t' = next_id t + 1
    /\ forall k, is_Some (rows t !! k) -> rows t' !! k = rows t !! k.
Proof.
  intros request t Hwf Hm Hstatus. cbv zeta.
  assert (Hfree : rows t !! next_id t = None).
  { destruct (rows t !! next_id t) eqn:E; [|reflexivity].
    assert (H : is_Some (rows t !! next_id t)) by (rewrite E; eauto).
    apply Hwf in H. lia. }
  destruct (GenericApi.data request) as [body|detail] eqn:Hdata.
  2:{ exfalso. revert Hstatus. unfold serve, GenericApi.EmployeesList. rewrite Hm.
      unfold handle_exception, GenericApi.create, bind, lift. rewrite Hdata. discriminate. }
  destruct (GenericApi.is_valid false body) as [validated|errors] eqn:Hvalid.
  2:{ exfalso. rewrite (GenericApiFacts.create_invalid request t body errors Hm Hdata Hvalid)
        in Hstatus. discriminate Hstatus. }
  destruct body as [| | | | |members]; try discriminate Hvalid.
  destruct (GenericApiFacts.create_valid request t members validated Hm Hdata Hvalid)
    as (n & a & _ & _ & Hserve).
  cbv zeta in Hserve. rewrite Hserve. simpl.
  split; [exact Hfree|]. split; [rewrite lookup_insert_eq; eauto|]. split; [reflexivity|].
  intros k Hk. apply Hwf in Hk. rewrite lookup_insert_ne by lia. reflexivity.
Qed.

Lemma EmployeesList_post_takes_free_key_witness :
  rows (snd (serve (GenericApi.EmployeesList Samples.post_ann) Samples.staff_with_ann)) !! 1
  = Some Samples.ann.
Proof.
  destruct (EmployeesList_post_takes_free_key Samples.post_ann Samples.staff_with_ann
              (singleton_table_wf 1 Samples.ann) eq_refl eq_refl) as (_ & _ & _ & Hkept).
  rewrite (Hkept 1); [reflexivity|]. vm_compute. eauto.
Defined.

(** ** Updating through [EmployeesManipulation] *)

Lemma generic_update_success partial request pk t members r validated :
  rows t !! pk = Some r ->
  GenericApi.data request = Decoded (JObj members) ->
  GenericApi.is_valid partial (JObj members) = inl validated ->
  serve (handle_exception (GenericApi.update partial request pk)) t
  = (Response 200 (Json (GenericApi.to_representation
                           (Instance pk (GenericApi.updated r validated)))),
     Table (<[pk := GenericApi.updated r validated]> (rows t)) (next_id t)).
Proof.
  intros Hrow Hdata Hvalid. unfold serve, handle_exception, GenericApi.update, bind.
  rewrite (GenericApiFacts.get_object_found _ _ _ Hrow). unfold lift. rewrite Hdata. simpl.
  rewrite Hvalid. reflexivity.
Qed.

Lemma generic_update_invalid partial request pk t body r errors :
  rows t !! pk = Some r ->
  GenericApi.data request = Decoded body ->
  GenericApi.is_valid partial body = inr errors ->
  serve (handle_exception (GenericApi.update partial request pk)) t
  = (JsonResponse errors 400, t).
Proof.
  intros Hrow Hdata Hvalid. unfold serve, handle_exception, GenericApi.update, bind.
  rewrite (GenericApiFacts.get_object_found _ _ _ Hrow). unfold lift. rewrite Hdata. simpl.
  rewrite Hvalid. reflexivity.
Qed.

(** X18.  PUT is a full update and PATCH a partial one.  On a stored
    employee, a PUT whose body lacks the name or the age is answered 400
    with "This field is required." for that field and changes nothing; a
    PATCH with the empty object is answered 200 with the employee as stored
    and changes nothing either. *)
Theorem put_requires_what_patch_does_not :
  (forall (request : GenericApi.request) (pk : Z) (t : table GenericApi.Employees)
          r members key,
      GenericApi.method request = PUT ->
      rows t !! pk = Some r ->
      GenericApi.data request = Decoded (JObj members) ->
      key = "name" \/ key = "age" ->
      dict_get key members = None ->
      exists errors,
        dict_get key errors = Some (JArr [JStr "This field is required."])
        /\ serve (GenericApi.EmployeesManipulation request pk) t
           = (Response 400 (Json (JObj errors)), t))
  /\
  (forall (request : GenericApi.request) (pk : Z) (t : table GenericApi.Employees) r,
      GenericApi.method request = PATCH ->
      rows t !! pk = Some r ->
      GenericApi.data request = Decoded (JObj []) ->
      serve (GenericApi.EmployeesManipulation request pk) t
      = (Response 200 (Json (GenericApi.to_representation (Instance pk r))), t)).
Proof.
  split.
  - intros request pk t r members key Hm Hrow Hdata Hkey Hmissing.
    assert (Hinvalid : exists errors,
               dict_get key errors = Some (JArr [JStr "This field is required."])
               /\ GenericApi.is_valid false (JObj members) = inr errors).
    { unfold GenericApi.is_valid.
      destruct Hkey as [-> | ->]; rewrite Hmissing; simpl;
        repeat match goal with
               | |- context [run_validation false ?req ?f (dict_get ?k members)] =>
                   destruct (run_validation false req f (dict_get k members))
               end; simpl; eexists; (split; [|reflexivity]); reflexivity. }
    destruct Hinvalid as (errors & Herrors & Hvalid).
    exists errors. split; [exact Herrors|].
    unfold GenericApi.EmployeesManipulation. rewrite Hm.
    apply (generic_update_invalid false request pk t (JObj members) r errors Hrow Hdata Hvalid).
  - intros request pk t r Hm Hrow Hdata.
    unfold GenericApi.EmployeesManipulation, GenericApi.partial_update. rewrite Hm.
    rewrite (generic_update_success true request pk t [] r
               {| GenericApi.v_name := None; GenericApi.v_age := None;
                  GenericApi.v_salary := None |} Hrow Hdata eq_refl).
    unfold GenericApi.updated. simpl. destruct r as [name age salary]. simpl.
    rewrite (insert_id (rows t) pk _ Hrow). destruct t. reflexivity.
Qed.

Lemma put_requires_what_patch_does_not_witness :
  (exists errors,
      dict_get "age" errors = Some (JArr [JStr "This field is required."])
      /\ serve (GenericApi.EmployeesManipulation
                  (Samples.employees_request PUT (JObj [("name", JStr "Bob")])) 1)
               Samples.staff_with_ann
         = (Response 400 (Json (JObj errors)), Samples.staff_with_ann))
  /\ serve (GenericApi.EmployeesManipulation
              (Samples.employees_request PATCH (JObj [])) 1) Samples.staff_with_ann
     = (Response 200 (Json (GenericApi.to_representation (Instance 1 Samples.ann))),
        Samples.staff_with_ann).
Proof.
  destruct put_requires_what_patch_does_not as (Hput & Hpatch).
  split.
  - exact (Hput (Samples.employees_request PUT (JObj [("name", JStr "Bob")])) 1
             Samples.staff_with_ann Samples.ann [("name", JStr "Bob")] "age"
             eq_refl eq_refl eq_refl (or_intror eq_refl) eq_refl).
  - exact (Hpatch (Samples.employees_request PATCH (JObj [])) 1 Samples.staff_with_ann
             Samples.ann eq_refl eq_refl eq_refl).
Defined.

(** X19.  Update, then retrieve.  When a PUT or a PATCH on
    [EmployeesManipulation] is answered 200, a GET of the same key on the
    resulting store answers 200 with the very DTO the update returned. *)
Theorem update_then_retrieve :
  forall (update get : GenericApi.request) (pk : Z) (t : table GenericApi.Employees),
    GenericApi.method update = PUT \/ GenericApi.method update = PATCH ->
    status (fst (serve (GenericApi.EmployeesManipulation update pk) t)) = 200 ->
    GenericApi.method get = GET ->
    let t1 := snd (serve (GenericApi.EmployeesManipulation update pk) t) in
    serve (GenericApi.EmployeesManipulation get pk) t1
    = (fst (serve (GenericApi.EmployeesManipulation update pk) t), t1).
Proof.
  intros update get pk t Hm Hstatus Hget. cbv zeta.
  assert (Hout : exists partial,
             GenericApi.EmployeesManipulation update pk
             = handle_exception (GenericApi.update partial update pk)).
  { unfold GenericApi.EmployeesManipulation, GenericApi.partial_update.
    destruct Hm as [-> | ->]; eauto. }
  destruct Hout as [partial Hview]. rewrite Hview in *.
  pose proof (GenericApiFacts.update_outcomes partial update pk t) as H.
  destruct (serve (handle_exception (GenericApi.update partial update pk)) t) as [resp t'].
  cbv beta iota in H. simpl in *.
  destruct H as [[_ Hne]|(members & r & validated & _ & _ & _ & -> & ->)]; [congruence|].
  apply GenericApiFacts.retrieve_found; [exact Hget|]. simpl. apply lookup_insert_eq.
Qed.

Lemma update_then_retrieve_witness :
  serve (GenericApi.EmployeesManipulation Samples.get_employee 1)
        (snd (serve (GenericApi.EmployeesManipulation Samples.patch_salary 1)
                Samples.staff_with_ann))
  = (Response 200 (Json (JObj [("id", JNum 1); ("name", JStr "Ann"); ("age", JNum 30);
                               ("salary", JNum 70000)])),
     snd (serve (GenericApi.EmployeesManipulation Samples.patch_salary 1)
            Samples.staff_with_ann)).
Proof.
  exact (update_then_retrieve Samples.patch_salary Samples.get_employee 1 Samples.staff_with_ann
           (or_intror eq_refl) eq_refl eq_refl).
Defined.

Lemma generic_updated_twice r validated :
  GenericApi.updated (GenericApi.updated r validated) validated
  = GenericApi.updated r validated.
Proof. destruct validated as [[n|] [a|] [s|]]; reflexivity. Qed.

(** X20.  Updates are idempotent.  Serving a PUT of [notesApi], or a PUT or
    a PATCH of [EmployeesManipulation], a second time on the store the first
    one left gives the same response and the same store. *)
Theorem updates_are_idempotent :
  (forall (request : FunctionBased.request) (path_id : option Z) (t : table FunctionBased.Notes),
      FunctionBased.method request = PUT ->
      serve (FunctionBased.notesApi request path_id)
            (snd (serve (FunctionBased.notesApi request path_id) t))
      = serve (FunctionBased.notesApi request path_id) t)
  /\
  (forall (request : GenericApi.request) (pk : Z) (t : table GenericApi.Employees),
      GenericApi.method request = PUT \/ GenericApi.method request = PATCH ->
      serve (GenericApi.EmployeesManipulation request pk)
            (snd (serve (GenericApi.EmployeesManipulation request pk) t))
      = serve (GenericApi.EmployeesManipulation request pk) t).
Proof.
  split.
  - intros request path_id t Hm.
    destruct (notesApi_outcomes request path_id t)
      as [->|[(? & ? & Hm' & _)
             |[(members & pk & n & old & v & _ & Hdata & Hid & Hpk & Hrow & Hvalid & Hserve)
              |(? & ? & Hm' & _)]]]; try congruence.
    rewrite Hserve. simpl snd.
    rewrite (notes_put_updates request path_id _ members pk n (note_updated old v) v
               Hm Hdata Hid Hpk (lookup_insert_eq _ _ _) Hvalid).
    simpl. rewrite insert_insert_eq. reflexivity.
  - intros request pk t Hm.
    assert (Hout : exists partial,
               GenericApi.EmployeesManipulation request pk
               = handle_exception (GenericApi.update partial request pk)).
    { unfold GenericApi.EmployeesManipulation, GenericApi.partial_update.
      destruct Hm as [-> | ->]; eauto. }
    destruct Hout as [partial ->].
    pose proof (GenericApiFacts.update_outcomes partial request pk t) as H.
    destruct (serve (handle_exception (GenericApi.update partial request pk)) t)
      as [resp t'] eqn:Hserve.
    cbv beta iota in H.
    destruct H as [[-> _]|(members & r & validated & Hdata & Hrow & Hvalid & -> & ->)].
    + exact Hserve.
    + simpl snd.
      rewrite (generic_update_success partial request pk _ members
                 (GenericApi.updated r validated) validated
                 (lookup_insert_eq _ _ _) Hdata Hvalid).
      simpl. rewrite generic_updated_twice, insert_insert_eq. reflexivity.
Qed.

Lemma updates_are_idempotent_witness :
  serve (GenericApi.EmployeesManipulation Samples.patch_salary 1)
        (snd (serve (GenericApi.EmployeesManipulation Samples.patch_salary 1)
                Samples.staff_with_ann))
  = serve (GenericApi.EmployeesManipulation Samples.patch_salary 1) Samples.staff_with_ann.
Proof.
  exact (proj2 updates_are_idempotent Samples.patch_salary 1 Samples.staff_with_ann
           (or_intror eq_refl)).
Defined.

(** X21.  The generic views write only when they report success: if a
    request changes the store, it was a POST to [EmployeesList] answered
    201, or - on [EmployeesManipulation] - a PUT or PATCH answered 200 or a
    DELETE answered 204. *)
Theorem generic_views_write_only_on_success :
  (forall (request : GenericApi.request) (t : table GenericApi.Employees),
      snd (serve (GenericApi.EmployeesList request) t) <> t ->
      GenericApi.method request = POST
      /\ status (fst (serve (GenericApi.EmployeesList request) t)) = 201)
  /\
  (forall (request : GenericApi.request) (pk : Z) (t : table GenericApi.Employees),
      snd (serve (GenericApi.EmployeesManipulation request pk) t) <> t ->
      let st := status (fst (serve (GenericApi.EmployeesManipulation request pk) t)) in
      ((GenericApi.method request = PUT \/ GenericApi.method request = PATCH) /\ st = 200)
      \/ (GenericApi.method request = DELETE /\ st = 204)).
Proof.
  split.
  - intros request t Hchanged.
    destruct (GenericApi.method request) eqn:Hm;
      try (exfalso; apply Hchanged; unfold serve, GenericApi.EmployeesList; rewrite Hm;
           reflexivity).
    split; [reflexivity|].
    destruct (GenericApi.data request) as [body|detail] eqn:Hdata.
    2:{ exfalso. apply Hchanged. unfold serve, GenericApi.EmployeesList. rewrite Hm.
        unfold handle_exception, GenericApi.create, bind, lift. rewrite Hdata. reflexivity. }
    destruct (GenericApi.is_valid false body) as [validated|errors] eqn:Hvalid.
    2:{ exfalso. apply Hchanged.
        rewrite (GenericApiFacts.create_invalid request t body errors Hm Hdata Hvalid).
        reflexivity. }
    destruct body as [| | | | |members]; try discriminate Hvalid.
    destruct (GenericApiFacts.create_valid request t members validated Hm Hdata Hvalid)
      as (n & a & _ & _ & Hserve).
    cbv zeta in Hserve. rewrite Hserve. reflexivity.
  - intros request pk t Hchanged. cbv zeta.
    destruct (rows t !! pk) as [r|] eqn:Hrow.
    2:{ exfalso. apply Hchanged.
        destruct (decide (GenericApi.method request = POST)) as [Hm|Hm].
        - unfold serve, GenericApi.EmployeesManipulation. rewrite Hm. reflexivity.
        - rewrite (GenericApiFacts.item_missing request pk t Hm Hrow). reflexivity. }
    destruct (GenericApi.method request) eqn:Hm.
    + exfalso. apply Hchanged.
      rewrite (GenericApiFacts.retrieve_found request pk t r Hm Hrow). reflexivity.
    + exfalso. apply Hchanged. unfold serve, GenericApi.EmployeesManipulation. rewrite Hm.
      reflexivity.
    + left. split; [auto|]. revert Hchanged.
      unfold GenericApi.EmployeesManipulation. rewrite Hm.
      pose proof (GenericApiFacts.update_outcomes false request pk t) as H.
      destruct (serve (handle_exception (GenericApi.update false request pk)) t) as [resp t'].
      cbv beta iota in H. simpl.
      destruct H as [[-> _]|(? & ? & ? & _ & _ & _ & -> & _)]; [contradiction|reflexivity].
    + left. split; [auto|]. revert Hchanged.
      unfold GenericApi.EmployeesManipulation, GenericApi.partial_update. rewrite Hm.
      pose proof (GenericApiFacts.update_outcomes true request pk t) as H.
      destruct (serve (handle_exception (GenericApi.update true request pk)) t) as [resp t'].
      cbv beta iota in H. simpl.
      destruct H as [[-> _]|(? & ? & ? & _ & _ & _ & -> & _)]; [contradiction|reflexivity].
    + right. split; [reflexivity|].
      rewrite (GenericApiFacts.destroy_found request pk t r Hm Hrow). reflexivity.
Qed.

Lemma generic_views_write_only_on_success_witness :
  status (fst (serve (GenericApi.EmployeesList Samples.post_ann) Samples.staff)) = 201.
Proof.
  refine (proj2 (proj1 generic_views_write_only_on_success Samples.post_ann Samples.staff _)).
  vm_compute. discriminate.
Defined.

(** ** concreteView/apiView *)

(** X22.  The salary default of the model.  A POST to [listCreateEmployees]
    that is answered 201 and whose body carries no salary creates the
    employee with salary 10000: a GET of [RetrieveUpdateDestroyEmployees]
    under the assigned key answers 200 with a DTO that carries that key and
    that salary. *)
Theorem concrete_create_defaults_salary :
  forall (post get : GenericApi.request) (t : table GenericApi.Employees) members,
    GenericApi.method post = POST ->
    GenericApi.data post = Decoded (JObj members) ->
    dict_get "salary" members = None ->
    status (fst (serve (ConcreteView.listCreateEmployees post) t)) = 201 ->
    GenericApi.method get = GET ->
    let t1 := snd (serve (ConcreteView.listCreateEmployees post) t) in
    exists dto,
      serve (ConcreteView.RetrieveUpdateDestroyEmployees get (next_id t)) t1
      = (Response 200 (Json (JObj dto)), t1)
      /\ dict_get "id" dto = Some (JNum (next_id t))
      /\ dict_get "salary" dto = Some (JNum 10000).
Proof.
  intros post get t members Hm Hdata Hsalary Hstatus Hget. cbv zeta.
  change (ConcreteView.listCreateEmployees post) with (GenericApi.EmployeesList post) in *.
  change (ConcreteView.RetrieveUpdateDestroyEmployees get (next_id t))
    with (GenericApi.EmployeesManipulation get (next_id t)).
  destruct (GenericApi.is_valid false (JObj members)) as [validated|errors] eqn:Hvalid.
  2:{ rewrite (GenericApiFacts.create_invalid post t _ errors Hm Hdata Hvalid) in Hstatus.
      discriminate Hstatus. }
  destruct (GenericApiFacts.is_valid_full members validated Hvalid)
    as (n & a & Hn & Hname & Ha & Hage & Hsal).
  destruct (GenericApiFacts.create_valid post t members validated Hm Hdata Hvalid)
    as (n' & a' & Hn' & Ha' & Hserve).
  assert (Hnone : GenericApi.v_salary validated = None).
  { rewrite Hsalary in Hsal. destruct (GenericApi.v_salary validated); [discriminate|reflexivity]. }
  cbv zeta in Hserve. rewrite Hserve, Hnone. simpl snd.
  rewrite (GenericApiFacts.retrieve_found get (next_id t) _
             {| GenericApi.name := n'; GenericApi.age := a';
                GenericApi.salary := default GenericApi.salary_default None |} Hget)
    by apply lookup_insert_eq.
  eexists. split; [reflexivity|]. split; reflexivity.
Qed.

Lemma concrete_create_defaults_salary_witness :
  exists dto,
    serve (ConcreteView.RetrieveUpdateDestroyEmployees Samples.get_employee 1)
          (snd (serve (ConcreteView.listCreateEmployees
                         (Samples.employees_request POST
                            (JObj [("name", JStr "Bob"); ("age", JNum 41)])))
                  Samples.staff))
    = (Response 200 (Json (JObj dto)),
       snd (serve (ConcreteView.listCreateEmployees
                     (Samples.employees_request POST
                        (JObj [("name", JStr "Bob"); ("age", JNum 41)])))
              Samples.staff))
    /\ dict_get "id" dto = Some (JNum 1)
    /\ dict_get "salary" dto = Some (JNum 10000).
Proof.
  exact (concrete_create_defaults_salary
           (Samples.employees_request POST (JObj [("name", JStr "Bob"); ("age", JNum 41)]))
           Samples.get_employee Samples.staff
           [("name", JStr "Bob"); ("age", JNum 41)]
           eq_refl eq_refl eq_refl eq_refl eq_refl).
Defined.

(** ** Deleting twice *)


